(** * Bang-bang DC motor speed regulator (lab-3/motor-control/motor-control.ino)

    A shallow embedding of the Arduino sketch and the proofs of its
    specification.  The sketch programs the ATmega timer registers
    (TCCR1A, OCR1A, TIMSK2, ...) and its interrupt vectors, so it is built
    with avr-gcc: [int] and [unsigned int] are 16 bits wide, [long] and
    [unsigned long] 32 bits, and [float] and [double] are both IEEE-754
    binary32.  An interrupt service routine runs with interrupts disabled,
    so each routine is one atomic step of the machine. *)

From Stdlib Require Import ZArith NArith PArith List String Ascii Bool Lia.
From Stdlib Require Import SpecFloat.
Import ListNotations.

Local Open Scope Z_scope.

(** ** Machine arithmetic of the target *)

Module AVR.

(** [int]: 16 bits, two's complement. *)
Definition INT_MAX : Z := 32767.
Definition INT_MIN : Z := -32768.
Definition to_int (z : Z) : Z := (z + 32768) mod 65536 - 32768.

(** [unsigned int]: 16 bits, arithmetic modulo 2^16. *)
Definition UINT_MODULUS : N := 65536.
Definition to_uint (n : N) : N := (n mod UINT_MODULUS)%N.
Definition uint_incr (n : N) : N := to_uint (n + 1).

(** Conversions between the integer types. *)
Definition int_of_uint (n : N) : Z := to_int (Z.of_N n).
Definition uint_of_Z (z : Z) : N := Z.to_N (z mod 65536).

(** [long] and [unsigned long]: 32 bits. *)
Definition to_long (z : Z) : Z := (z + 2147483648) mod 4294967296 - 2147483648.
Definition to_ulong (z : Z) : N := Z.to_N (z mod 4294967296).

(** [float] (and [double]): IEEE-754 binary32, 24 bits of precision. *)
Definition prec : Z := 24.
Definition emax : Z := 128.
Definition float : Type := spec_float.

Definition fadd : float -> float -> float := SFadd prec emax.
Definition fsub : float -> float -> float := SFsub prec emax.
Definition fmul : float -> float -> float := SFmul prec emax.
Definition fdiv : float -> float -> float := SFdiv prec emax.
Definition flt : float -> float -> bool := SFltb.
Definition fneg : float -> float := SFopp.

(** Conversion of an integer to [float], rounding to nearest even. *)
Definition float_of_Z (z : Z) : float := binary_normalize prec emax z 0 false.

(** Conversion of a [float] to an integer type truncates toward zero. *)
Definition Ztrunc (f : float) : Z :=
  match f with
  | S754_finite s m e =>
      let a := match e with
               | Zneg p => Z.shiftr (Zpos m) (Zpos p)
               | _ => Z.shiftl (Zpos m) e
               end in
      if s then - a else a
  | _ => 0
  end.

Definition is_nan (f : float) : bool :=
  match f with S754_nan => true | _ => false end.
Definition is_inf (f : float) : bool :=
  match f with S754_infinity _ => true | _ => false end.

End AVR.

Import AVR.

(** ** The Arduino core functions the sketch calls *)

Module Arduino.

Definition HIGH : Z := 1.
Definition LOW : Z := 0.

(** [digitalRead] returns [HIGH] or [LOW] for the level of the pin. *)
Definition digitalRead (level : bool) : Z := if level then HIGH else LOW.

(** Modelled from the spec: [map] is not defined in the sketch; it is the
    Arduino core's re-mapping of a number from one range to another, which
    the spec describes as the linear mapping of the raw analog range onto
    the target range, bounds included.  The core computes it on [long]
    with integer division:
    (x - in_min) * (out_max - out_min) / (in_max - in_min) + out_min. *)
Definition map (x in_min in_max out_min out_max : Z) : Z :=
  to_long (to_long (Z.quot (to_long (to_long (x - in_min) * to_long (out_max - out_min)))
                           (to_long (in_max - in_min)))
           + out_min).

(** *** The [Print] class behind [Serial]

    [Serial.print] and [Serial.println] are [Print::print] and
    [Print::println] of the Arduino core (Print.cpp), which is not part of
    the repository; the functions the sketch reaches are transcribed here
    from the core: the overloads for [int], for [const char *] and for
    [double], the last with its default of two decimals and with an
    explicit number of decimals.  A function here returns the characters
    the call writes. *)
Module Print.

Definition DEC : N := 10.

Definition digit_char (c : N) : ascii :=
  if (c <? 10)%N then ascii_of_N (c + 48) else ascii_of_N (c + 55).

(** The do-while loop of [printNumber]; the buffer it fills from the
    right holds 8 * sizeof(long) characters, enough for a 32-bit number in
    any base. *)
Fixpoint printNumber_loop (room : nat) (n base : N) (str : string) : string :=
  match room with
  | O => str
  | S room' =>
      let c := (n mod base)%N in
      let n' := (n / base)%N in
      let str' := String (digit_char c) str in
      if (n' =? 0)%N then str' else printNumber_loop room' n' base str'
  end.

Definition printNumber (n base : N) : string :=
  let base := if (base <? 2)%N then 10%N else base in
  printNumber_loop 32 n base EmptyString.

(** [print(unsigned long, int = DEC)], also reached from
    [print(unsigned int)]. *)
Definition print_ulong (n : N) : string := printNumber n DEC.

(** [print(long, int = DEC)], also reached from [print(int)]. *)
Definition print_long (n : Z) : string :=
  if n <? 0 then String "-" (printNumber (to_ulong (- n)) DEC)
  else printNumber (to_ulong n) DEC.

Definition print_int (n : Z) : string := print_long n.

(** The digits after the decimal point. *)
Fixpoint printFloat_digits (digits : nat) (remainder : float) : string :=
  match digits with
  | O => EmptyString
  | S digits' =>
      let remainder := fmul remainder (float_of_Z 10) in
      let toPrint := uint_of_Z (Ztrunc remainder) in
      let remainder := fsub remainder (float_of_Z (Z.of_N toPrint)) in
      (print_ulong toPrint ++ printFloat_digits digits' remainder)%string
  end.

(** [printFloat(double number, uint8_t digits)]. *)
Definition printFloat (number : float) (digits : nat) : string :=
  if is_nan number then "nan"%string
  else if is_inf number then "inf"%string
  else if flt (float_of_Z 4294967040) number then "ovf"%string
  else if flt number (float_of_Z (-4294967040)) then "ovf"%string
  else
    let neg := flt number (float_of_Z 0) in
    let number := if neg then fneg number else number in
    let rounding :=
      Nat.iter digits (fun r => fdiv r (float_of_Z 10))
               (fdiv (float_of_Z 1) (float_of_Z 2)) in
    let number := fadd number rounding in
    let int_part := to_ulong (Ztrunc number) in
    let remainder := fsub number (float_of_Z (Z.of_N int_part)) in
    ((if neg then "-" else EmptyString)
     ++ print_ulong int_part
     ++ (if (0 <? digits)%nat then "." else EmptyString)
     ++ printFloat_digits digits remainder)%string.

(** [print(double, int digits = 2)]. *)
Definition print_float (n : float) : string := printFloat n 2.

(** [println()] ends the line with carriage return and line feed. *)
Definition CRLF : string :=
  String (ascii_of_nat 13) (String (ascii_of_nat 10) EmptyString).

Definition println_float (n : float) : string :=
  (print_float n ++ CRLF)%string.

End Print.

End Arduino.

(** ** The sketch: tuning constants and global variables *)

Definition minimum_control_action : Z := 0.
Definition maximum_control_action : Z := 250.
Definition initialMotorSetpoint : Z := 20.

Definition encoderInPin : Z := 8.
Definition motorPWMPin : Z := 6.

(** The global variables of the sketch, and what it has sent to its two
    outputs: the [analogWrite] calls and the characters on [Serial]. *)
Record State : Type := mkState {
  include_time_in_data : bool;
  min_accumulated_error : float;
  max_accumulated_error : float;
  encoderCurrentValue : Z;
  encoderCounts : N;
  lastStateHigh : bool;
  latestReading : N;
  input : float;
  output : float;
  setpoint : float;
  accumulated_error : float;
  divide_frequency_counter : N;
  pwm_writes : list (Z * Z);
  serial : string
}.

(** The variables as their initialisers leave them. *)
Definition initial_state : State := {|
  include_time_in_data := false;
  min_accumulated_error := float_of_Z 0;
  max_accumulated_error := float_of_Z 500;
  encoderCurrentValue := 0;
  encoderCounts := 0;
  lastStateHigh := false;
  latestReading := 0;
  input := float_of_Z 0;
  output := float_of_Z 0;
  setpoint := float_of_Z 0;
  accumulated_error := float_of_Z 0;
  divide_frequency_counter := 0;
  pwm_writes := [];
  serial := EmptyString
|}.

Definition set_encoderCurrentValue (v : Z) (st : State) : State :=
  mkState (include_time_in_data st) (min_accumulated_error st)
          (max_accumulated_error st) v (encoderCounts st) (lastStateHigh st)
          (latestReading st) (input st) (output st) (setpoint st)
          (accumulated_error st) (divide_frequency_counter st)
          (pwm_writes st) (serial st).

Definition set_encoderCounts (v : N) (st : State) : State :=
  mkState (include_time_in_data st) (min_accumulated_error st)
          (max_accumulated_error st) (encoderCurrentValue st) v
          (lastStateHigh st) (latestReading st) (input st) (output st)
          (setpoint st) (accumulated_error st) (divide_frequency_counter st)
          (pwm_writes st) (serial st).

Definition set_lastStateHigh (v : bool) (st : State) : State :=
  mkState (include_time_in_data st) (min_accumulated_error st)
          (max_accumulated_error st) (encoderCurrentValue st)
          (encoderCounts st) v (latestReading st) (input st) (output st)
          (setpoint st) (accumulated_error st) (divide_frequency_counter st)
          (pwm_writes st) (serial st).

Definition set_setpoint (v : float) (st : State) : State :=
  mkState (include_time_in_data st) (min_accumulated_error st)
          (max_accumulated_error st) (encoderCurrentValue st)
          (encoderCounts st) (lastStateHigh st) (latestReading st) (input st)
          (output st) v (accumulated_error st) (divide_frequency_counter st)
          (pwm_writes st) (serial st).

Definition set_accumulated_error (v : float) (st : State) : State :=
  mkState (include_time_in_data st) (min_accumulated_error st)
          (max_accumulated_error st) (encoderCurrentValue st)
          (encoderCounts st) (lastStateHigh st) (latestReading st) (input st)
          (output st) (setpoint st) v (divide_frequency_counter st)
          (pwm_writes st) (serial st).

Definition set_divide_frequency_counter (v : N) (st : State) : State :=
  mkState (include_time_in_data st) (min_accumulated_error st)
          (max_accumulated_error st) (encoderCurrentValue st)
          (encoderCounts st) (lastStateHigh st) (latestReading st) (input st)
          (output st) (setpoint st) (accumulated_error st) v
          (pwm_writes st) (serial st).

(** [analogWrite(pin, value)]: the call is appended to the record of what
    was written to the PWM hardware. *)
Definition analogWrite (pin value : Z) (st : State) : State :=
  mkState (include_time_in_data st) (min_accumulated_error st)
          (max_accumulated_error st) (encoderCurrentValue st)
          (encoderCounts st) (lastStateHigh st) (latestReading st) (input st)
          (output st) (setpoint st) (accumulated_error st)
          (divide_frequency_counter st)
          (pwm_writes st ++ [(pin, value)]) (serial st).

(** [Serial.print]: the characters are appended to the output stream. *)
Definition Serial_print (s : string) (st : State) : State :=
  mkState (include_time_in_data st) (min_accumulated_error st)
          (max_accumulated_error st) (encoderCurrentValue st)
          (encoderCounts st) (lastStateHigh st) (latestReading st) (input st)
          (output st) (setpoint st) (accumulated_error st)
          (divide_frequency_counter st) (pwm_writes st)
          (serial st ++ s)%string.

(** ** The sketch: the control law *)

(** [int CalculateControlAction(int &currentCount, float &setpoint,
    float &error_sum)].  The three parameters are references: the function
    returns its result together with the values the referenced objects hold
    when it returns.  The comparison converts [currentCount] to [float]. *)
Definition CalculateControlAction (currentCount : Z) (setpoint : float)
    (error_sum : float) : Z * (Z * float * float) :=
  if flt (float_of_Z currentCount) setpoint
  then (maximum_control_action, (currentCount, setpoint, error_sum))
  else (minimum_control_action, (currentCount, setpoint, error_sum)).

(** ** The sketch: Timer1, sampling the encoder *)

(** [ISR(TIMER1_COMPA_vect)]; [pin] is the level of the encoder pin when
    the routine reads it. *)
Definition TIMER1_COMPA_vect (pin : bool) (st : State) : State :=
  let st := set_encoderCurrentValue (Arduino.digitalRead pin) st in
  if lastStateHigh st && (encoderCurrentValue st =? 0) then
    let st := set_encoderCounts (uint_incr (encoderCounts st)) st in
    set_lastStateHigh false st
  else if negb (lastStateHigh st) && (encoderCurrentValue st =? 1) then
    let st := set_lastStateHigh true st in
    set_encoderCounts (uint_incr (encoderCounts st)) st
  else st.

(** ** The sketch: setup and the main loop *)

(** [setup()]: the setpoint is initialised; the timers start after it. *)
Definition setup (st : State) : State :=
  set_setpoint (float_of_Z initialMotorSetpoint) st.

(** One iteration of [loop()]; [a0] is what [analogRead(A0)] returns. *)
Definition loop (a0 : Z) (st : State) : State :=
  set_setpoint (float_of_Z (Arduino.map a0 0 1023 0 50)) st.

(** ** The sketch: Timer2, the control cycle at one firing in five *)

(** Snapshot of the pulse counter into the local [currentCount] and reset
    of the counter (the first two statements of the control cycle). *)
Definition snapshot (st : State) : Z * State :=
  (int_of_uint (encoderCounts st), set_encoderCounts 0 st).

(** The limiter applied to the control action. *)
Definition limit_control_action (control_action : Z) : Z :=
  if control_action <? minimum_control_action then minimum_control_action
  else if control_action >? maximum_control_action then maximum_control_action
  else control_action.

(** Actuation: the control action is limited and written to the motor pin;
    the limited value is what the telemetry reports afterwards. *)
Definition actuate (control_action : Z) (st : State) : Z * State :=
  let control_action := limit_control_action control_action in
  (control_action, analogWrite motorPWMPin control_action st).

(** The telemetry line; [micros] is what [micros()] returns. *)
Definition telemetry (micros : N) (currentCount control_action : Z)
    (st : State) : State :=
  let timeInSeconds :=
    fdiv (float_of_Z (Z.of_N micros)) (float_of_Z 1000000) in
  let st :=
    if include_time_in_data st then
      Serial_print "," (Serial_print (Arduino.Print.printFloat timeInSeconds 4) st)
    else st in
  let st := Serial_print (Arduino.Print.print_int currentCount) st in
  let st := Serial_print ".0" st in
  let st := Serial_print "," st in
  let st := Serial_print (Arduino.Print.print_float (setpoint st)) st in
  let st := Serial_print "," st in
  Serial_print
    (Arduino.Print.println_float (fdiv (float_of_Z control_action) (float_of_Z 10)))
    st.

(** The body of the [if] of the Timer2 routine, after the counter reset. *)
Definition control_cycle (micros : N) (st : State) : State :=
  let '(currentCount, st) := snapshot st in
  let '(control_action, (currentCount, sp, err)) :=
    CalculateControlAction currentCount (setpoint st) (accumulated_error st) in
  let st := set_accumulated_error err (set_setpoint sp st) in
  let '(control_action, st) := actuate control_action st in
  telemetry micros currentCount control_action st.

(** [ISR(TIMER2_COMPA_vect)]. *)
Definition TIMER2_COMPA_vect (micros : N) (st : State) : State :=
  let st :=
    if (5 <=? divide_frequency_counter st)%N then
      control_cycle micros (set_divide_frequency_counter 0 st)
    else st in
  set_divide_frequency_counter (uint_incr (divide_frequency_counter st)) st.

(** ** Executions *)

(** What can happen after [setup]: a firing of either timer, or one
    iteration of the main loop.  The two routines exclude each other; the
    assignment of the main loop is taken as one step. *)
Inductive Event : Type :=
| Timer1 (pin : bool)
| Timer2 (micros : N)
| MainLoop (a0 : Z).

Definition step (st : State) (ev : Event) : State :=
  match ev with
  | Timer1 pin => TIMER1_COMPA_vect pin st
  | Timer2 micros => TIMER2_COMPA_vect micros st
  | MainLoop a0 => loop a0 st
  end.

Definition run (st : State) (evs : list Event) : State :=
  fold_left step evs st.

(** The machine when the timers start. *)
Definition booted : State := setup initial_state.

(** The number of control cycles a state has seen: each one writes the
    motor pin once. *)
Definition cycles (st : State) : nat := List.length (pwm_writes st).

(** The number of Timer2 firings among the events. *)
Fixpoint timer2_count (evs : list Event) : nat :=
  match evs with
  | [] => O
  | Timer2 _ :: evs' => S (timer2_count evs')
  | _ :: evs' => timer2_count evs'
  end.

(** The levels Timer1 sampled, in order. *)
Fixpoint samples (evs : list Event) : list bool :=
  match evs with
  | [] => []
  | Timer1 pin :: evs' => pin :: samples evs'
  | _ :: evs' => samples evs'
  end.

(** The number of level transitions in a sequence of samples, [last] being
    the level seen before the first of them. *)
Fixpoint transitions (last : bool) (levels : list bool) : nat :=
  match levels with
  | [] => O
  | l :: levels' =>
      ((if xorb last l then 1 else 0) + transitions l levels')%nat
  end.

(** ** The pace of the two timers *)

(** The periods of the two timers in clock cycles, as [setupTimer1] and
    [setupTimer2] program them: Timer1 counts the clock itself (prescaler
    1) from 0 to OCR1A = 1562; Timer2 counts the clock divided by 1024 (its
    three clock-select bits are set) from 0 to OCR2A = 156. *)
Definition timer1_period : N := (1562 + 1) * 1.
Definition timer2_period : N := (156 + 1) * 1024.

(** A period of Timer2 holds at most this many compare matches of Timer1. *)
Definition samples_per_tick : nat :=
  N.to_nat (timer2_period / timer1_period + 1).

(** The events keep the pace of the timers: Timer1 fires at most
    [samples_per_tick] times before the first firing of Timer2 and between
    two consecutive firings of Timer2.  [room] is the number of firings of
    Timer1 still allowed before the next firing of Timer2. *)
Fixpoint on_schedule_from (room : nat) (evs : list Event) : bool :=
  match evs with
  | [] => true
  | Timer1 _ :: evs' =>
      match room with
      | O => false
      | S room' => on_schedule_from room' evs'
      end
  | Timer2 _ :: evs' => on_schedule_from samples_per_tick evs'
  | MainLoop _ :: evs' => on_schedule_from room evs'
  end.

Definition on_schedule (evs : list Event) : bool :=
  on_schedule_from samples_per_tick evs.

(** The state of the end-to-end scenario: the setpoint is 20, as [setup]
    leaves it, and the pulse counter holds 15. *)
Definition scenario_15_20 : State := set_encoderCounts 15 booted.

(** ** The value of a [float] *)

(** A valid finite binary32 number is a multiple of 2^-149: [scaled f] is
    the value of [f] times 2^149, an integer. *)
Definition scale : Z := 149.

Definition scaled (f : float) : option Z :=
  match f with
  | S754_zero _ => Some 0
  | S754_finite s m e => Some (cond_Zopp s (Zpos m * 2 ^ (e + scale)))
  | _ => None
  end.

(** [Zlt_float c f]: the integer [c] is less than the value of [f]; nothing
    is less than a NaN. *)
Definition Zlt_float (c : Z) (f : float) : Prop :=
  match f with
  | S754_nan => False
  | S754_infinity s => s = false
  | S754_zero _ => c < 0
  | S754_finite s m e => c * 2 ^ scale < cond_Zopp s (Zpos m * 2 ^ (e + scale))
  end.

Definition valid_float (f : float) : Prop := valid_binary prec emax f = true.

(** The edge detector in the words of the specification, over the pair
    (Last Edge Level, Pulse Counter) and the level just read. *)
Definition edge_detector (last : bool) (count : N) (level : bool) : bool * N :=
  if last && negb level then (false, uint_incr count)
  else if negb last && level then (true, uint_incr count)
  else (last, count).

(** The value nearest to [v] in the actuation range. *)
Definition nearest_in_range (v : Z) : Z :=
  Z.max minimum_control_action (Z.min maximum_control_action v).

(** The characters one control cycle sends to [Serial]. *)
Definition telemetry_line (micros : N) (currentCount control_action : Z)
    (st : State) : string :=
  ((if include_time_in_data st then
      Arduino.Print.printFloat
        (fdiv (float_of_Z (Z.of_N micros)) (float_of_Z 1000000)) 4 ++ ","
    else EmptyString)
   ++ Arduino.Print.print_int currentCount ++ ".0" ++ ","
   ++ Arduino.Print.print_float (setpoint st) ++ ","
   ++ Arduino.Print.println_float
        (fdiv (float_of_Z control_action) (float_of_Z 10)))%string.

(** ** Further notions used by the properties *)

(** A write to the PWM hardware as the bang-bang controller makes them: to
    the motor pin, of one of the two actuation levels. *)
Definition bang_bang_write (w : Z * Z) : Prop :=
  fst w = motorPWMPin
  /\ (snd w = minimum_control_action \/ snd w = maximum_control_action).

(** The number of line feeds in a stream of characters. *)
Fixpoint line_feeds (s : string) : nat :=
  match s with
  | EmptyString => O
  | String c s' =>
      ((if Ascii.eqb c (ascii_of_nat 10) then 1 else 0) + line_feeds s')%nat
  end.

(** The events are firings of the timers only: the main loop stores no
    setpoint meanwhile. *)
Fixpoint timers_only (evs : list Event) : bool :=
  match evs with
  | [] => true
  | MainLoop _ :: _ => false
  | _ :: evs' => timers_only evs'
  end.

(** The lines of a stream, one after the other. *)
Fixpoint concat_lines (lines : list string) : string :=
  match lines with
  | [] => EmptyString
  | l :: lines' => (l ++ concat_lines lines')%string
  end.

(** One line: characters other than line feed, then carriage return and
    line feed. *)
Definition one_line (l : string) : Prop :=
  exists body : string,
    l = (body ++ Arduino.Print.CRLF)%string /\ line_feeds body = O.

(** ** The timer registers *)

(** The bit numbers the sketch takes from <avr/io.h>, which is not part of
    the repository: they are parameters of the two setup functions. *)
Record IoBits : Type := mkIoBits {
  OCIE1A : N;
  WGM12 : N;
  CS10 : N;
  WGM21 : N;
  CS22 : N;
  CS21 : N;
  CS20 : N;
  OCIE2A : N
}.

(** The configuration registers the setup functions write, and the global
    interrupt enable flag.  The counters TCNT1 and TCNT2 are not among
    them: a counter runs as soon as its clock is selected, so the value a
    setup function writes to it is not what it holds afterwards. *)
Record Registers : Type := mkRegisters {
  interrupts_enabled : bool;
  TCCR1A : N;
  TCCR1B : N;
  OCR1A : N;
  TIMSK1 : N;
  TCCR2A : N;
  TCCR2B : N;
  OCR2A : N;
  TIMSK2 : N
}.

Definition set_interrupts_enabled (v : bool) (r : Registers) : Registers :=
  mkRegisters v (TCCR1A r) (TCCR1B r) (OCR1A r) (TIMSK1 r) (TCCR2A r)
              (TCCR2B r) (OCR2A r) (TIMSK2 r).

Definition set_TCCR1A (v : N) (r : Registers) : Registers :=
  mkRegisters (interrupts_enabled r) v (TCCR1B r) (OCR1A r) (TIMSK1 r)
              (TCCR2A r) (TCCR2B r) (OCR2A r) (TIMSK2 r).

Definition set_TCCR1B (v : N) (r : Registers) : Registers :=
  mkRegisters (interrupts_enabled r) (TCCR1A r) v (OCR1A r) (TIMSK1 r)
              (TCCR2A r) (TCCR2B r) (OCR2A r) (TIMSK2 r).

Definition set_OCR1A (v : N) (r : Registers) : Registers :=
  mkRegisters (interrupts_enabled r) (TCCR1A r) (TCCR1B r) v (TIMSK1 r)
              (TCCR2A r) (TCCR2B r) (OCR2A r) (TIMSK2 r).

Definition set_TIMSK1 (v : N) (r : Registers) : Registers :=
  mkRegisters (interrupts_enabled r) (TCCR1A r) (TCCR1B r) (OCR1A r) v
              (TCCR2A r) (TCCR2B r) (OCR2A r) (TIMSK2 r).

Definition set_TCCR2A (v : N) (r : Registers) : Registers :=
  mkRegisters (interrupts_enabled r) (TCCR1A r) (TCCR1B r) (OCR1A r)
              (TIMSK1 r) v (TCCR2B r) (OCR2A r) (TIMSK2 r).

Definition set_TCCR2B (v : N) (r : Registers) : Registers :=
  mkRegisters (interrupts_enabled r) (TCCR1A r) (TCCR1B r) (OCR1A r)
              (TIMSK1 r) (TCCR2A r) v (OCR2A r) (TIMSK2 r).

Definition set_OCR2A (v : N) (r : Registers) : Registers :=
  mkRegisters (interrupts_enabled r) (TCCR1A r) (TCCR1B r) (OCR1A r)
              (TIMSK1 r) (TCCR2A r) (TCCR2B r) v (TIMSK2 r).

Definition set_TIMSK2 (v : N) (r : Registers) : Registers :=
  mkRegisters (interrupts_enabled r) (TCCR1A r) (TCCR1B r) (OCR1A r)
              (TIMSK1 r) (TCCR2A r) (TCCR2B r) (OCR2A r) v.

(** [cli()] and [noInterrupts()] disable interrupts, [sei()] and
    [interrupts()] enable them. *)
Definition cli (r : Registers) : Registers := set_interrupts_enabled false r.
Definition sei (r : Registers) : Registers := set_interrupts_enabled true r.
Definition noInterrupts (r : Registers) : Registers := cli r.
Definition interrupts (r : Registers) : Registers := sei r.

(** A value stored in an 8-bit register keeps its low 8 bits. *)
Definition to_uint8 (n : N) : N := N.land n 255.

(** [1 << bit]. *)
Definition bit_mask (bit : N) : N := N.shiftl 1 bit.

(** [void setupTimer1()], on the configuration registers; the statement
    [TCNT1 = 0] restarts the counter and changes none of them. *)
Definition setupTimer1 (io : IoBits) (r : Registers) : Registers :=
  let r := cli r in
  let r := set_TCCR1A 0 r in
  let r := set_TCCR1B 0 r in
  let r := set_OCR1A 1562 r in
  let r := set_TIMSK1 (to_uint8 (N.lor (TIMSK1 r) (bit_mask (OCIE1A io)))) r in
  let r :=
    set_TCCR1B
      (to_uint8 (N.lor (TCCR1B r)
                   (N.lor (bit_mask (WGM12 io)) (bit_mask (CS10 io))))) r in
  sei r.

(** [void setupTimer2()], on the configuration registers; the statement
    [TCNT2 = 0] restarts the counter and changes none of them. *)
Definition setupTimer2 (io : IoBits) (r : Registers) : Registers :=
  let r := noInterrupts r in
  let r := set_TCCR2A 0 r in
  let r := set_TCCR2B 0 r in
  let r := set_OCR2A 156 r in
  let r := set_TCCR2A (to_uint8 (N.lor (TCCR2A r) (bit_mask (WGM21 io)))) r in
  let r :=
    set_TCCR2B
      (to_uint8 (N.lor (TCCR2B r)
                   (N.lor (N.lor (bit_mask (CS22 io)) (bit_mask (CS21 io)))
                          (bit_mask (CS20 io))))) r in
  let r := set_TIMSK2 (to_uint8 (N.lor (TIMSK2 r) (bit_mask (OCIE2A io)))) r in
  interrupts r.

(** The timer part of [setup()]: Timer1 is set up first, then Timer2. *)
Definition setup_timers (io : IoBits) (r : Registers) : Registers :=
  setupTimer2 io (setupTimer1 io r).

(** * Properties *)

(** ** Edge-sampling timer *)

Lemma uint_incr_small (n : N) :
  (n < 65535)%N -> uint_incr n = (n + 1)%N.
Proof.
  intros H. unfold uint_incr, to_uint, UINT_MODULUS.
  apply N.mod_small. lia.
Qed.

Lemma TIMER1_frame (pin : bool) (st : State) :
  include_time_in_data (TIMER1_COMPA_vect pin st) = include_time_in_data st
  /\ setpoint (TIMER1_COMPA_vect pin st) = setpoint st
  /\ accumulated_error (TIMER1_COMPA_vect pin st) = accumulated_error st
  /\ divide_frequency_counter (TIMER1_COMPA_vect pin st) = divide_frequency_counter st
  /\ pwm_writes (TIMER1_COMPA_vect pin st) = pwm_writes st
  /\ serial (TIMER1_COMPA_vect pin st) = serial st.
Proof.
  unfold TIMER1_COMPA_vect.
  destruct pin, (lastStateHigh st) eqn:E; cbn; rewrite E; cbn; repeat split.
Qed.

Lemma TIMER1_edge (pin : bool) (st : State) :
  (lastStateHigh (TIMER1_COMPA_vect pin st), encoderCounts (TIMER1_COMPA_vect pin st))
  = edge_detector (lastStateHigh st) (encoderCounts st) pin.
Proof.
  unfold TIMER1_COMPA_vect, edge_detector.
  destruct pin, (lastStateHigh st) eqn:E; cbn; rewrite E; cbn; try rewrite E; reflexivity.
Qed.

(** C5: every call of the Timer1 routine reads the pin level and moves the
    pair (Last Edge Level, Pulse Counter) as the edge detector of the
    specification does: from high with the level low, and from low with the
    level high, the counter is incremented (as an [unsigned int], modulo
    2^16) and the stored level flipped; otherwise neither changes.  The
    other variables keep their values, but for the one holding the level
    read.  Last Edge Level is false at startup. *)
Theorem C5_edge_sampling_state_machine :
  forall (pin : bool) (st : State),
    let st' := TIMER1_COMPA_vect pin st in
    encoderCurrentValue st' = Arduino.digitalRead pin
    /\ (lastStateHigh st', encoderCounts st')
       = edge_detector (lastStateHigh st) (encoderCounts st) pin
    /\ st' = set_encoderCounts (encoderCounts st')
               (set_lastStateHigh (lastStateHigh st')
                  (set_encoderCurrentValue (Arduino.digitalRead pin) st))
    /\ edge_detector true (encoderCounts st) false = (false, uint_incr (encoderCounts st))
    /\ edge_detector false (encoderCounts st) true = (true, uint_incr (encoderCounts st))
    /\ edge_detector true (encoderCounts st) true = (true, encoderCounts st)
    /\ edge_detector false (encoderCounts st) false = (false, encoderCounts st)
    /\ uint_incr (encoderCounts st) = ((encoderCounts st + 1) mod 65536)%N
    /\ lastStateHigh initial_state = false
    /\ lastStateHigh booted = false.
Proof.
  intros pin st st'. subst st'.
  split; [|split; [apply TIMER1_edge|]].
  - unfold TIMER1_COMPA_vect.
    destruct pin, (lastStateHigh st) eqn:E; cbn; rewrite E; reflexivity.
  - split; [|repeat split].
    unfold TIMER1_COMPA_vect.
    destruct st as [a b c d e f g h i j k l m n].
    destruct pin, f; reflexivity.
Qed.

(** ** Actuation *)

Lemma limit_control_action_range (v : Z) :
  minimum_control_action <= limit_control_action v <= maximum_control_action.
Proof.
  unfold limit_control_action, minimum_control_action, maximum_control_action.
  destruct (Z.ltb_spec v 0); [lia|].
  destruct (Z.gtb_spec v 250); lia.
Qed.

Lemma limit_control_action_nearest (v : Z) :
  limit_control_action v = nearest_in_range v.
Proof.
  unfold limit_control_action, nearest_in_range,
    minimum_control_action, maximum_control_action.
  destruct (Z.ltb_spec v 0); [lia|].
  destruct (Z.gtb_spec v 250); lia.
Qed.

(** C4: whatever the raw control action, negative and beyond the range
    included, the actuation stage writes to the motor pin a value between
    [minimum_control_action] = 0 and [maximum_control_action] = 250, the
    value of the range nearest to the raw one; it writes exactly once and
    has no other outcome. *)
Theorem C4_actuation_within_range :
  forall (raw : Z) (st : State),
    let v := fst (actuate raw st) in
    let st' := snd (actuate raw st) in
    pwm_writes st' = pwm_writes st ++ [(motorPWMPin, v)]
    /\ minimum_control_action <= v <= maximum_control_action
    /\ 0 <= v <= 250
    /\ v = nearest_in_range raw
    /\ limit_control_action (-1) = 0
    /\ limit_control_action INT_MIN = 0
    /\ limit_control_action 251 = 250
    /\ limit_control_action INT_MAX = 250.
Proof.
  intros raw st. cbn.
  split; [reflexivity|].
  split; [apply limit_control_action_range|].
  split; [apply limit_control_action_range|].
  split; [apply limit_control_action_nearest|].
  repeat split.
Qed.

(** ** The control law and the limiter *)

Lemma CalculateControlAction_cases (c : Z) (s e : float) :
  fst (CalculateControlAction c s e) = minimum_control_action
  \/ fst (CalculateControlAction c s e) = maximum_control_action.
Proof.
  unfold CalculateControlAction.
  destruct (flt (float_of_Z c) s); [right|left]; reflexivity.
Qed.

Lemma CalculateControlAction_refs (c : Z) (s e : float) :
  snd (CalculateControlAction c s e) = (c, s, e).
Proof.
  unfold CalculateControlAction.
  destruct (flt (float_of_Z c) s); reflexivity.
Qed.

Lemma limit_CalculateControlAction (c : Z) (s e : float) :
  limit_control_action (fst (CalculateControlAction c s e))
  = fst (CalculateControlAction c s e).
Proof.
  destruct (CalculateControlAction_cases c s e) as [H|H]; rewrite H; reflexivity.
Qed.

(** What a control cycle does to the state, statement by statement. *)
Lemma control_cycle_unfold (micros : N) (st : State) :
  control_cycle micros st
  = telemetry micros (int_of_uint (encoderCounts st))
      (fst (CalculateControlAction (int_of_uint (encoderCounts st))
              (setpoint st) (accumulated_error st)))
      (analogWrite motorPWMPin
         (fst (CalculateControlAction (int_of_uint (encoderCounts st))
                 (setpoint st) (accumulated_error st)))
         (set_encoderCounts 0 st)).
Proof.
  unfold control_cycle, snapshot, actuate.
  cbn [fst snd setpoint accumulated_error set_encoderCounts].
  pose proof (CalculateControlAction_refs (int_of_uint (encoderCounts st))
                (setpoint st) (accumulated_error st)) as R.
  pose proof (limit_CalculateControlAction (int_of_uint (encoderCounts st))
                (setpoint st) (accumulated_error st)) as L.
  destruct (CalculateControlAction _ _ _) as [a [[c s] e]].
  cbn in R, L. inversion R; subst. rewrite L.
  destruct st; reflexivity.
Qed.

(** C9: the limiter of the Timer2 routine is the identity on what the
    bang-bang control law returns, for every measured count and setpoint:
    the limited control action is the raw one, and it is the raw one that a
    control cycle writes to the motor pin. *)
Theorem C9_limiter_identity_on_control_law :
  forall (currentCount : Z) (sp err : float) (micros : N) (st : State),
    limit_control_action (fst (CalculateControlAction currentCount sp err))
    = fst (CalculateControlAction currentCount sp err)
    /\ fst (actuate (fst (CalculateControlAction currentCount sp err)) st)
       = fst (CalculateControlAction currentCount sp err)
    /\ pwm_writes (control_cycle micros st)
       = pwm_writes st
         ++ [(motorPWMPin,
              fst (CalculateControlAction (fst (snapshot st)) (setpoint st)
                     (accumulated_error st)))].
Proof.
  intros c s e micros st.
  split; [apply limit_CalculateControlAction|].
  split; [apply limit_CalculateControlAction|].
  rewrite control_cycle_unfold.
  unfold telemetry.
  destruct (include_time_in_data _); reflexivity.
Qed.

(** ** The control cycle as a whole *)

Lemma append_assoc (a b c : string) :
  ((a ++ b) ++ c)%string = (a ++ (b ++ c))%string.
Proof.
  induction a as [|x a IH]; cbn; [reflexivity|]. now rewrite IH.
Qed.

Lemma Serial_print_twice (a b : string) (st : State) :
  Serial_print b (Serial_print a st) = Serial_print (a ++ b) st.
Proof.
  unfold Serial_print; cbn. now rewrite append_assoc.
Qed.

Lemma telemetry_prints (micros : N) (c a : Z) (st : State) :
  telemetry micros c a st = Serial_print (telemetry_line micros c a st) st.
Proof.
  unfold telemetry, telemetry_line.
  destruct (include_time_in_data st) eqn:E.
  - rewrite !Serial_print_twice. cbn [setpoint Serial_print].
    now rewrite !append_assoc.
  - rewrite !Serial_print_twice. reflexivity.
Qed.

(** A control cycle resets the pulse counter, writes the motor pin once and
    prints one line; it touches nothing else. *)
Lemma control_cycle_effect (micros : N) (st : State) :
  let c := int_of_uint (encoderCounts st) in
  let a := fst (CalculateControlAction c (setpoint st) (accumulated_error st)) in
  control_cycle micros st
  = Serial_print (telemetry_line micros c a st)
      (analogWrite motorPWMPin a (set_encoderCounts 0 st)).
Proof.
  cbn zeta. rewrite control_cycle_unfold, telemetry_prints. reflexivity.
Qed.

Lemma TIMER2_counter (micros : N) (st : State) :
  divide_frequency_counter (TIMER2_COMPA_vect micros st)
  = ((if (5 <=? divide_frequency_counter st)%N then 0
      else divide_frequency_counter st) + 1)%N.
Proof.
  unfold TIMER2_COMPA_vect.
  destruct (N.leb_spec 5 (divide_frequency_counter st)) as [H|H].
  - rewrite control_cycle_effect. reflexivity.
  - cbn. apply uint_incr_small. lia.
Qed.

Lemma TIMER2_cycles (micros : N) (st : State) :
  cycles (TIMER2_COMPA_vect micros st)
  = ((if (5 <=? divide_frequency_counter st)%N then 1 else 0) + cycles st)%nat.
Proof.
  unfold TIMER2_COMPA_vect, cycles.
  destruct (N.leb_spec 5 (divide_frequency_counter st)) as [H|H].
  - rewrite control_cycle_effect. cbn. rewrite length_app. cbn. lia.
  - reflexivity.
Qed.

Lemma step_counter (ev : Event) (st : State) :
  divide_frequency_counter (step st ev)
  = match ev with
    | Timer2 _ =>
        ((if (5 <=? divide_frequency_counter st)%N then 0
          else divide_frequency_counter st) + 1)%N
    | _ => divide_frequency_counter st
    end.
Proof.
  destruct ev as [pin|micros|a0]; cbn [step].
  - apply TIMER1_frame.
  - apply TIMER2_counter.
  - reflexivity.
Qed.

Lemma step_cycles (ev : Event) (st : State) :
  cycles (step st ev)
  = match ev with
    | Timer2 _ =>
        ((if (5 <=? divide_frequency_counter st)%N then 1 else 0) + cycles st)%nat
    | _ => cycles st
    end.
Proof.
  destruct ev as [pin|micros|a0]; cbn [step].
  - unfold cycles. f_equal. apply TIMER1_frame.
  - apply TIMER2_cycles.
  - reflexivity.
Qed.

(** ** The decimation counter *)

Lemma run_counter_range (evs : list Event) :
  forall st : State,
    (divide_frequency_counter st <= 5)%N ->
    (divide_frequency_counter (run st evs) <= 5)%N
    /\ (divide_frequency_counter (run st evs) = 0%N
        <-> divide_frequency_counter st = 0%N /\ timer2_count evs = O).
Proof.
  induction evs as [|ev evs IH]; intros st H; cbn [run fold_left].
  - cbn. intuition.
  - fold (run (step st ev) evs).
    pose proof (step_counter ev st) as Hs.
    destruct (IH (step st ev)) as [I1 I2].
    { rewrite Hs. destruct ev; try assumption.
      destruct (N.leb_spec 5 (divide_frequency_counter st)); lia. }
    split; [exact I1|].
    rewrite I2, Hs.
    destruct ev; cbn [timer2_count]; try reflexivity.
    destruct (N.leb_spec 5 (divide_frequency_counter st)); lia.
Qed.

(** C10: after every completed call of the Timer2 routine the decimation
    counter lies between 1 and 5, whatever the state the call started in;
    the increment never wraps around.  Along every execution from startup
    the counter stays at most 5, and it is 0 exactly as long as Timer2 has
    not fired. *)
Theorem C10_decimation_counter_invariant :
  forall (micros : N) (st : State) (evs : list Event),
    (1 <= divide_frequency_counter (TIMER2_COMPA_vect micros st) <= 5)%N
    /\ divide_frequency_counter (TIMER2_COMPA_vect micros st)
       = ((if (5 <=? divide_frequency_counter st)%N then 0
           else divide_frequency_counter st) + 1)%N
    /\ (divide_frequency_counter (run booted evs) <= 5)%N
    /\ (divide_frequency_counter (run booted evs) = 0%N <-> timer2_count evs = O)
    /\ divide_frequency_counter booted = 0%N.
Proof.
  intros micros st evs.
  rewrite TIMER2_counter.
  split; [destruct (N.leb_spec 5 (divide_frequency_counter st)); lia|].
  split; [reflexivity|].
  destruct (run_counter_range evs booted) as [I1 I2]; [cbn; lia|].
  split; [exact I1|]. split; [|reflexivity].
  rewrite I2. cbn. intuition.
Qed.

(** ** The decimating scheduler *)

Lemma div5_next (n : nat) : ((n + 5) / 5 = S (n / 5))%nat.
Proof.
  replace (n + 5)%nat with (n + 1 * 5)%nat by lia.
  rewrite Nat.div_add by lia. lia.
Qed.

(** The number of control cycles along an execution, from the value of the
    decimation counter at its start. *)
Lemma run_cycles (evs : list Event) :
  forall st : State,
    (divide_frequency_counter st <= 5)%N ->
    cycles (run st evs)
    = (cycles st
       + (timer2_count evs + N.to_nat (divide_frequency_counter st) - 1) / 5)%nat.
Proof.
  induction evs as [|ev evs IH]; intros st H; cbn [run fold_left].
  - cbn [timer2_count].
    replace ((0 + N.to_nat (divide_frequency_counter st) - 1) / 5)%nat with O.
    + lia.
    + symmetry. apply Nat.div_small. lia.
  - fold (run (step st ev) evs).
    pose proof (step_counter ev st) as Hc.
    pose proof (step_cycles ev st) as Hy.
    rewrite IH.
    + rewrite Hc, Hy.
      destruct ev; cbn [timer2_count]; try reflexivity.
      destruct (N.leb_spec 5 (divide_frequency_counter st)) as [L|L].
      * replace (divide_frequency_counter st) with 5%N by lia.
        replace (S (timer2_count evs) + N.to_nat 5 - 1)%nat
          with (timer2_count evs + N.to_nat (0 + 1) - 1 + 5)%nat by lia.
        rewrite div5_next. lia.
      * replace (S (timer2_count evs) + N.to_nat (divide_frequency_counter st) - 1)%nat
          with (timer2_count evs + N.to_nat (divide_frequency_counter st + 1) - 1)%nat
          by lia.
        lia.
    + rewrite Hc. destruct ev; try assumption.
      destruct (N.leb_spec 5 (divide_frequency_counter st)); lia.
Qed.

(** C2, as the code has it: from a decimation counter of zero (startup), the
    number of control cycles executed over [n] calls of the Timer2 routine
    is (n - 1) / 5: none in the first five calls, the first one on the
    sixth call, and one more every five calls after that.  Once the routine
    has run (the counter is between 1 and 5), five consecutive calls hold
    exactly one control cycle.  Firings of Timer1 and iterations of the
    main loop in between change nothing to that. *)
Theorem C2_one_cycle_per_five_firings :
  forall (st : State) (evs : list Event),
    (divide_frequency_counter st <= 5)%N ->
    (divide_frequency_counter st = 0%N ->
     cycles (run st evs) = (cycles st + (timer2_count evs - 1) / 5)%nat)
    /\ ((1 <= divide_frequency_counter st)%N -> timer2_count evs = 5%nat ->
        cycles (run st evs) = (cycles st + 1)%nat)
    /\ cycles (run booted (repeat (Timer2 0) 5)) = 0%nat
    /\ cycles (run booted (repeat (Timer2 0) 6)) = 1%nat
    /\ cycles (run booted (repeat (Timer2 0) 10)) = 1%nat
    /\ cycles (run booted (repeat (Timer2 0) 11)) = 2%nat.
Proof.
  intros st evs H.
  split; [|split; [|repeat split]].
  - intros Hz. rewrite run_cycles by exact H. rewrite Hz.
    f_equal. f_equal. lia.
  - intros L E. rewrite run_cycles by exact H. rewrite E. f_equal.
    symmetry.
    apply Nat.div_unique with (r := (N.to_nat (divide_frequency_counter st) - 1)%nat); lia.
Qed.

Lemma C2_one_cycle_per_five_firings_witness :
  (divide_frequency_counter booted <= 5)%N
  /\ cycles (run booted [Timer2 0; Timer1 true; Timer2 10000; Timer2 20000;
                         MainLoop 512; Timer2 30000; Timer2 40000; Timer2 50000])
     = 1%nat
  /\ cycles (run (TIMER2_COMPA_vect 0 booted)
               [Timer2 10000; Timer2 20000; Timer1 false; Timer2 30000;
                Timer2 40000; Timer2 50000])
     = 1%nat.
Proof.
  assert (H : (divide_frequency_counter booted <= 5)%N) by (vm_compute; discriminate).
  assert (H' : (divide_frequency_counter (TIMER2_COMPA_vect 0 booted) <= 5)%N)
    by (vm_compute; discriminate).
  split; [exact H|]. split.
  - destruct (C2_one_cycle_per_five_firings booted
                [Timer2 0; Timer1 true; Timer2 10000; Timer2 20000;
                 MainLoop 512; Timer2 30000; Timer2 40000; Timer2 50000] H)
      as [F _].
    rewrite F; reflexivity.
  - destruct (C2_one_cycle_per_five_firings (TIMER2_COMPA_vect 0 booted)
                [Timer2 10000; Timer2 20000; Timer1 false; Timer2 30000;
                 Timer2 40000; Timer2 50000] H')
      as [_ [F _]].
    rewrite F; [reflexivity | vm_compute; discriminate | reflexivity].
Defined.

(** The claim of C2 fails at startup: the fifth call of the Timer2 routine
    runs no control cycle, the first one comes with the sixth call. *)
Lemma C2_first_cycle_not_on_fifth_firing :
  divide_frequency_counter booted = 0%N
  /\ cycles (run booted (repeat (Timer2 0) 5)) <> 1%nat
  /\ cycles (run booted (repeat (Timer2 0) 5)) = 0%nat
  /\ cycles (run booted (repeat (Timer2 0) 6)) = 1%nat.
Proof.
  repeat split. vm_compute. discriminate.
Qed.

(** ** The pulse counter between two control cycles *)

Lemma edge_detector_sample (last : bool) (count : N) (level : bool) :
  edge_detector last count level
  = (level, if xorb last level then uint_incr count else count).
Proof. destruct last, level; reflexivity. Qed.

Lemma uint_incr_add (n : N) (k : nat) :
  uint_incr (to_uint (n + N.of_nat k)) = to_uint (n + N.of_nat (S k)).
Proof.
  unfold uint_incr, to_uint, UINT_MODULUS.
  rewrite N.Div0.add_mod_idemp_l. f_equal. lia.
Qed.

(** While no control cycle runs, the pulse counter holds the number of
    transitions Timer1 saw, modulo 2^16, and the decimation counter the
    number of Timer2 firings. *)
Lemma run_between_cycles (evs : list Event) :
  forall (st : State) (k : nat),
    (divide_frequency_counter st + N.of_nat (timer2_count evs) <= 5)%N ->
    encoderCounts st = to_uint (N.of_nat k) ->
    encoderCounts (run st evs)
    = to_uint (N.of_nat (k + transitions (lastStateHigh st) (samples evs)))
    /\ divide_frequency_counter (run st evs)
       = (divide_frequency_counter st + N.of_nat (timer2_count evs))%N.
Proof.
  induction evs as [|ev evs IH]; intros st k H E; cbn [run fold_left].
  - cbn [timer2_count samples transitions].
    rewrite E. split; f_equal; lia.
  - fold (run (step st ev) evs).
    destruct ev as [pin|micros|a0]; cbn [timer2_count samples transitions] in *.
    + pose proof (TIMER1_edge pin st) as T.
      rewrite edge_detector_sample in T.
      pose proof (f_equal fst T) as T1. pose proof (f_equal snd T) as T2.
      cbn [fst snd] in T1, T2. clear T.
      pose proof (proj1 (proj2 (proj2 (proj2 (TIMER1_frame pin st))))) as F.
      cbn [step].
      destruct (xorb (lastStateHigh st) pin) eqn:X.
      * destruct (IH (TIMER1_COMPA_vect pin st) (S k)) as [I1 I2].
        { rewrite F. exact H. }
        { rewrite T2, E. replace (N.of_nat k) with (0 + N.of_nat k)%N by lia.
          rewrite uint_incr_add. f_equal. }
        rewrite I1, I2, T1, F.
        split; [f_equal; lia | reflexivity].
      * destruct (IH (TIMER1_COMPA_vect pin st) k) as [I1 I2].
        { rewrite F. exact H. }
        { rewrite T2. exact E. }
        rewrite I1, I2, T1, F.
        split; reflexivity.
    + cbn [step].
      assert (L : (5 <=? divide_frequency_counter st)%N = false)
        by (apply N.leb_gt; lia).
      assert (T : TIMER2_COMPA_vect micros st
                  = set_divide_frequency_counter
                      (divide_frequency_counter st + 1)%N st).
      { unfold TIMER2_COMPA_vect. rewrite L. f_equal.
        apply uint_incr_small. apply N.leb_gt in L. lia. }
      rewrite T.
      destruct (IH (set_divide_frequency_counter (divide_frequency_counter st + 1) st) k)
        as [I1 I2].
      { cbn. lia. }
      { exact E. }
      rewrite I1, I2. cbn. split; [reflexivity | lia].
    + cbn [step].
      destruct (IH (loop a0 st) k) as [I1 I2]; [exact H|exact E|].
      rewrite I1, I2. split; reflexivity.
Qed.

Lemma int_of_uint_small (n : nat) :
  Z.of_nat n <= INT_MAX -> int_of_uint (to_uint (N.of_nat n)) = Z.of_nat n.
Proof.
  unfold INT_MAX. intros H.
  unfold int_of_uint, to_int, to_uint, UINT_MODULUS.
  rewrite N.mod_small by lia.
  rewrite Z.mod_small by lia. lia.
Qed.

(** The Timer2 call that finds the decimation counter at 5 runs the
    control cycle. *)
Lemma TIMER2_fires (micros : N) (st : State) :
  divide_frequency_counter st = 5%N ->
  TIMER2_COMPA_vect micros st
  = set_divide_frequency_counter 1
      (control_cycle micros (set_divide_frequency_counter 0 st)).
Proof.
  intros H. unfold TIMER2_COMPA_vect. rewrite H. cbn [N.leb N.compare Pos.compare Pos.compare_cont].
  rewrite control_cycle_effect. reflexivity.
Qed.

(** Whatever the number of transitions in the interval, the snapshot is
    that number modulo 2^16, read as a signed 16-bit integer. *)
Lemma snapshot_modular (st : State) (evs : list Event) :
  encoderCounts st = 0%N ->
  (divide_frequency_counter st + N.of_nat (timer2_count evs) <= 5)%N ->
  fst (snapshot (run st evs))
  = int_of_uint (to_uint (N.of_nat (transitions (lastStateHigh st) (samples evs)))).
Proof.
  intros E C.
  destruct (run_between_cycles evs st 0) as [I _]; [exact C | rewrite E; reflexivity |].
  unfold snapshot. cbn [fst]. rewrite I. reflexivity.
Qed.

(** An interval between two control cycles, from a state where the pulse
    counter is zero (as the previous snapshot left it) to the Timer2 call
    that runs the next cycle, with any firings of Timer1, of Timer2 and
    iterations of the main loop in between.  As long as the number of
    transitions fits the 16-bit [int] that receives the snapshot, the
    snapshot is exactly their number, the control law is applied to that
    number, and the pulse counter is zero right after the snapshot and
    still when the routine returns. *)
Lemma snapshot_counts_transitions_bounded :
  forall (st : State) (evs : list Event) (micros : N),
    encoderCounts st = 0%N ->
    (divide_frequency_counter st + N.of_nat (timer2_count evs) = 5)%N ->
    Z.of_nat (transitions (lastStateHigh st) (samples evs)) <= INT_MAX ->
    let st' := run st evs in
    let n := Z.of_nat (transitions (lastStateHigh st) (samples evs)) in
    fst (snapshot st') = n
    /\ encoderCounts (snd (snapshot st')) = 0%N
    /\ TIMER2_COMPA_vect micros st'
       = set_divide_frequency_counter 1
           (control_cycle micros (set_divide_frequency_counter 0 st'))
    /\ pwm_writes (TIMER2_COMPA_vect micros st')
       = pwm_writes st'
         ++ [(motorPWMPin,
              fst (CalculateControlAction n (setpoint st') (accumulated_error st')))]
    /\ encoderCounts (TIMER2_COMPA_vect micros st') = 0%N.
Proof.
  intros st evs micros E C B st' n.
  destruct (run_between_cycles evs st 0) as [I1 I2]; [lia | rewrite E; reflexivity |].
  fold st' in I1, I2. cbn [Nat.add] in I1. rewrite C in I2.
  assert (S : fst (snapshot st') = n).
  { unfold snapshot. cbn [fst]. rewrite I1. apply int_of_uint_small. exact B. }
  split; [exact S|]. split; [reflexivity|].
  split; [apply TIMER2_fires; exact I2|].
  rewrite (TIMER2_fires micros st' I2), control_cycle_effect.
  unfold snapshot in S. cbn [fst] in S. cbn in S |- *.
  rewrite S. split; reflexivity.
Qed.

Lemma transitions_le_length (levels : list bool) :
  forall last : bool, (transitions last levels <= List.length levels)%nat.
Proof.
  induction levels as [|l levels IH]; intros last; cbn [transitions List.length];
    [lia|].
  pose proof (IH l). destruct (xorb last l); lia.
Qed.

(** At the pace of the timers, the firings of Timer1 are at most
    [samples_per_tick] for each firing of Timer2, and as many before the
    first one. *)
Lemma on_schedule_from_samples (evs : list Event) :
  forall room : nat,
    on_schedule_from room evs = true ->
    (List.length (samples evs) <= room + samples_per_tick * timer2_count evs)%nat.
Proof.
  induction evs as [|ev evs IH]; intros room H;
    cbn [samples timer2_count List.length]; [lia|].
  destruct ev as [pin|micros|a0]; cbn [on_schedule_from] in H;
    cbn [samples timer2_count List.length].
  - destruct room as [|room]; [discriminate|].
    pose proof (IH room H). lia.
  - pose proof (IH samples_per_tick H). lia.
  - exact (IH room H).
Qed.

(** An interval between two control cycles holds at most 618 samples at the
    pace of the timers: six periods of Timer2 at most, the first interval
    after startup being the longest. *)
Lemma on_schedule_interval (st : State) (evs : list Event) :
  (divide_frequency_counter st + N.of_nat (timer2_count evs) = 5)%N ->
  on_schedule evs = true ->
  (List.length (samples evs) <= 618)%nat.
Proof.
  intros C H. apply on_schedule_from_samples in H.
  change samples_per_tick with 103%nat in H. lia.
Qed.

(** C3: for every sequence of events between two consecutive control
    cycles that the timers can produce (firings of Timer1 with any pin
    levels, at most 103 of them per period of Timer2, firings of Timer2 and
    iterations of the main loop, from a state where the pulse counter is
    zero, as the previous snapshot left it, to the Timer2 call that runs
    the next cycle), the snapshot passed to the control law is exactly the
    number of level transitions Timer1 counted in the interval, none lost
    and none counted twice, and the pulse counter is zero right after the
    snapshot and still when the routine returns. *)
Theorem C3_snapshot_counts_transitions :
  forall (st : State) (evs : list Event) (micros : N),
    encoderCounts st = 0%N ->
    (divide_frequency_counter st + N.of_nat (timer2_count evs) = 5)%N ->
    on_schedule evs = true ->
    let st' := run st evs in
    let n := Z.of_nat (transitions (lastStateHigh st) (samples evs)) in
    fst (snapshot st') = n
    /\ encoderCounts (snd (snapshot st')) = 0%N
    /\ TIMER2_COMPA_vect micros st'
       = set_divide_frequency_counter 1
           (control_cycle micros (set_divide_frequency_counter 0 st'))
    /\ pwm_writes (TIMER2_COMPA_vect micros st')
       = pwm_writes st'
         ++ [(motorPWMPin,
              fst (CalculateControlAction n (setpoint st') (accumulated_error st')))]
    /\ encoderCounts (TIMER2_COMPA_vect micros st') = 0%N.
Proof.
  intros st evs micros E C H.
  apply snapshot_counts_transitions_bounded; [exact E | exact C |].
  pose proof (on_schedule_interval st evs C H) as L.
  pose proof (transitions_le_length (samples evs) (lastStateHigh st)) as T.
  unfold INT_MAX. lia.
Qed.

Lemma C3_snapshot_counts_transitions_witness :
  fst (snapshot (run booted [Timer1 true; Timer2 0; Timer1 true; Timer1 false;
                             Timer2 1; MainLoop 300; Timer2 2; Timer1 true;
                             Timer2 3; Timer2 4]))
  = 3.
Proof.
  refine (proj1 (C3_snapshot_counts_transitions booted
            [Timer1 true; Timer2 0; Timer1 true; Timer1 false;
             Timer2 1; MainLoop 300; Timer2 2; Timer1 true;
             Timer2 3; Timer2 4] 0 _ _ _)).
  - reflexivity.
  - reflexivity.
  - reflexivity.
Defined.

(** ** The accumulated error *)

Lemma set_accumulated_error_commutes_control_cycle (x : float) (micros : N) (st : State) :
  control_cycle micros (set_accumulated_error x st)
  = set_accumulated_error x (control_cycle micros st).
Proof.
  rewrite !control_cycle_effect. cbn -[telemetry_line CalculateControlAction].
  unfold CalculateControlAction, telemetry_line. cbn.
  destruct (flt _ _); reflexivity.
Qed.

(** C8: the accumulated error is neither read nor written by the bang-bang
    control law or by the control cycle.  The control law returns the same
    action whatever the accumulated error and leaves the referenced
    variable as it was; the control cycle and the whole Timer2 routine leave
    [accumulated_error] unchanged and behave the same whatever it holds. *)
Theorem C8_accumulated_error_untouched :
  forall (currentCount : Z) (sp e1 e2 : float) (micros : N) (st : State),
    fst (CalculateControlAction currentCount sp e1)
    = fst (CalculateControlAction currentCount sp e2)
    /\ snd (CalculateControlAction currentCount sp e1) = (currentCount, sp, e1)
    /\ accumulated_error (control_cycle micros st) = accumulated_error st
    /\ accumulated_error (TIMER2_COMPA_vect micros st) = accumulated_error st
    /\ control_cycle micros (set_accumulated_error e1 st)
       = set_accumulated_error e1 (control_cycle micros st)
    /\ TIMER2_COMPA_vect micros (set_accumulated_error e1 st)
       = set_accumulated_error e1 (TIMER2_COMPA_vect micros st).
Proof.
  intros c sp e1 e2 micros st.
  split; [unfold CalculateControlAction; destruct (flt _ _); reflexivity|].
  split; [apply CalculateControlAction_refs|].
  split; [rewrite control_cycle_effect; reflexivity|].
  split.
  - unfold TIMER2_COMPA_vect.
    destruct (5 <=? divide_frequency_counter st)%N; [|reflexivity].
    rewrite control_cycle_effect. reflexivity.
  - split; [apply set_accumulated_error_commutes_control_cycle|].
    unfold TIMER2_COMPA_vect. cbn [divide_frequency_counter set_accumulated_error].
    destruct (5 <=? divide_frequency_counter st)%N; [|reflexivity].
    change (set_divide_frequency_counter 0 (set_accumulated_error e1 st))
      with (set_accumulated_error e1 (set_divide_frequency_counter 0 st)).
    rewrite set_accumulated_error_commutes_control_cycle.
    reflexivity.
Qed.

(** ** The setpoint read from the analog input *)

Lemma to_long_small (z : Z) :
  -2147483648 <= z < 2147483648 -> to_long z = z.
Proof.
  intros H. unfold to_long. rewrite Z.mod_small by lia. lia.
Qed.

Lemma map_analog (a0 : Z) :
  0 <= a0 <= 1023 -> Arduino.map a0 0 1023 0 50 = a0 * 50 / 1023.
Proof.
  intros H. unfold Arduino.map.
  assert (D : 0 <= a0 * 50 / 1023 <= 50).
  { split; [apply Z.div_pos; lia | apply Z.div_le_upper_bound; lia]. }
  rewrite (to_long_small (a0 - 0)) by lia.
  rewrite (to_long_small (50 - 0)) by lia.
  rewrite (to_long_small (1023 - 0)) by lia.
  rewrite (to_long_small ((a0 - 0) * (50 - 0))) by lia.
  replace ((a0 - 0) * (50 - 0)) with (a0 * 50) by lia.
  replace (1023 - 0) with 1023 by lia.
  rewrite Z.quot_div_nonneg by lia.
  rewrite (to_long_small (a0 * 50 / 1023)) by lia.
  rewrite to_long_small by lia. lia.
Qed.

(** C7: the main loop sets the setpoint to the analog reading mapped from
    0..1023 onto 0..50: a reading of 0 gives the setpoint 0, a reading of
    1023 the setpoint 50, and a reading [a0] in between gives a0 * 50 / 1023
    (integer division), which stays between 0 and 50. *)
Theorem C7_setpoint_mapping :
  forall (a0 : Z) (st : State),
    0 <= a0 <= 1023 ->
    Arduino.map 0 0 1023 0 50 = 0
    /\ Arduino.map 1023 0 1023 0 50 = 50
    /\ Arduino.map a0 0 1023 0 50 = a0 * 50 / 1023
    /\ 0 <= Arduino.map a0 0 1023 0 50 <= 50
    /\ setpoint (loop 0 st) = float_of_Z 0
    /\ setpoint (loop 1023 st) = float_of_Z 50
    /\ setpoint (loop a0 st) = float_of_Z (a0 * 50 / 1023)
    /\ scaled (float_of_Z 0) = Some 0
    /\ scaled (float_of_Z 50) = Some (50 * 2 ^ scale).
Proof.
  intros a0 st H.
  split; [reflexivity|]. split; [reflexivity|].
  split; [apply map_analog; exact H|].
  split.
  - rewrite map_analog by exact H.
    split; [apply Z.div_pos; lia | apply Z.div_le_upper_bound; lia].
  - split; [reflexivity|]. split; [reflexivity|].
    split; [cbn; rewrite map_analog by exact H; reflexivity|].
    split; reflexivity.
Qed.

Lemma C7_setpoint_mapping_witness :
  Arduino.map 512 0 1023 0 50 = 25
  /\ setpoint (loop 1023 booted) = float_of_Z 50.
Proof.
  assert (H : 0 <= 512 <= 1023) by lia.
  destruct (C7_setpoint_mapping 512 booted H) as [_ [_ [M [_ [_ [S _]]]]]].
  split; [rewrite M; reflexivity | exact S].
Defined.

(** ** The end-to-end scenario *)

(** C6, as the code has it: in a control cycle with the setpoint at 20 and
    a measured count of 15, the control law returns 250, the limiter leaves
    it unchanged and 250 is written to the motor pin; with the timestamp
    disabled the telemetry line is "15.0,20.00,25.00" followed by carriage
    return and line feed: the count with ".0" appended, then the setpoint
    and the limited action divided by 10.0, both printed as [float] with two
    decimals. *)
Theorem C6_scenario_15_20 :
  forall (micros : N) (st : State),
    setpoint st = float_of_Z 20 ->
    encoderCounts st = 15%N ->
    include_time_in_data st = false ->
    fst (snapshot st) = 15
    /\ fst (CalculateControlAction 15 (setpoint st) (accumulated_error st))
       = maximum_control_action
    /\ limit_control_action maximum_control_action = maximum_control_action
    /\ maximum_control_action = 250
    /\ pwm_writes (control_cycle micros st) = pwm_writes st ++ [(motorPWMPin, 250)]
    /\ fdiv (float_of_Z 250) (float_of_Z 10) = float_of_Z 25
    /\ serial (control_cycle micros st)
       = (serial st ++ "15.0,20.00,25.00" ++ Arduino.Print.CRLF)%string.
Proof.
  intros micros st S E T.
  assert (A : fst (CalculateControlAction 15 (setpoint st) (accumulated_error st))
              = maximum_control_action)
    by (rewrite S; reflexivity).
  split; [unfold snapshot; rewrite E; reflexivity|].
  split; [exact A|].
  split; [reflexivity|]. split; [reflexivity|].
  rewrite control_cycle_effect, E.
  change (int_of_uint 15) with 15. rewrite A.
  split; [reflexivity|]. split; [reflexivity|].
  unfold telemetry_line.
  cbn [serial Serial_print analogWrite set_encoderCounts include_time_in_data setpoint].
  rewrite T, S. reflexivity.
Qed.

Lemma C6_scenario_15_20_witness :
  serial (control_cycle 0 scenario_15_20)
  = ("15.0,20.00,25.00" ++ Arduino.Print.CRLF)%string.
Proof.
  refine (proj2 (proj2 (proj2 (proj2 (proj2 (proj2
            (C6_scenario_15_20 0 scenario_15_20 _ _ _))))))).
  - reflexivity.
  - reflexivity.
  - reflexivity.
Defined.

(** The claim of C6 fails on the telemetry line: with the setpoint at 20 and
    a count of 15 the line does not start with "15.0,20,25.0". *)
Lemma C6_telemetry_line_differs :
  setpoint scenario_15_20 = float_of_Z 20
  /\ fst (snapshot scenario_15_20) = 15
  /\ include_time_in_data scenario_15_20 = false
  /\ serial scenario_15_20 = EmptyString
  /\ String.prefix "15.0,20,25.0" (serial (control_cycle 0 scenario_15_20)) = false
  /\ serial (control_cycle 0 scenario_15_20) <> "15.0,20,25.0"%string
  /\ serial (control_cycle 0 scenario_15_20)
     <> ("15.0,20,25.0" ++ Arduino.Print.CRLF)%string.
Proof.
  repeat split; try reflexivity; vm_compute; discriminate.
Qed.

(** ** The control law on the values of its arguments *)

Lemma digits2_pos_bounds (m : positive) :
  2 ^ (Zpos (digits2_pos m) - 1) <= Zpos m < 2 ^ Zpos (digits2_pos m).
Proof.
  induction m as [m IH|m IH|]; cbn [digits2_pos].
  - rewrite Pos2Z.inj_succ.
    replace (Z.succ (Zpos (digits2_pos m)) - 1) with (Z.succ (Zpos (digits2_pos m) - 1)) by lia.
    rewrite !Z.pow_succ_r by lia. lia.
  - rewrite Pos2Z.inj_succ.
    replace (Z.succ (Zpos (digits2_pos m)) - 1) with (Z.succ (Zpos (digits2_pos m) - 1)) by lia.
    rewrite !Z.pow_succ_r by lia. lia.
  - cbn. lia.
Qed.

Lemma digits2_pos_shift (p k : positive) :
  digits2_pos (Pos.iter xO p k) = (digits2_pos p + k)%positive.
Proof.
  induction k as [|k IH] using Pos.peano_ind.
  - cbn. lia.
  - rewrite Pos.iter_succ. cbn [digits2_pos]. rewrite IH. lia.
Qed.

Lemma Zpos_shift (p k : positive) :
  Zpos (Pos.iter xO p k) = Zpos p * 2 ^ Zpos k.
Proof.
  induction k as [|k IH] using Pos.peano_ind.
  - cbn. lia.
  - rewrite Pos.iter_succ, Pos2Z.inj_succ, Z.pow_succ_r by lia.
    rewrite Pos2Z.inj_xO, IH. lia.
Qed.

Lemma bounded_shape (m : positive) (e : Z) :
  bounded prec emax m e = true ->
  -149 <= e <= 104
  /\ Zpos (digits2_pos m) <= 24
  /\ (Zpos (digits2_pos m) = 24 \/ e = -149).
Proof.
  unfold bounded, canonical_mantissa, fexp, emin, prec, emax.
  intros H. apply andb_prop in H. destruct H as [H1 H2].
  apply Z.eqb_eq in H1. apply Z.leb_le in H2. lia.
Qed.

Lemma binary_round_aux_exact (s : bool) (m : positive) (e : Z) :
  Zpos (digits2_pos m) = 24 -> -149 <= e <= 104 ->
  binary_round_aux prec emax s (Zpos m) e loc_Exact = S754_finite s m e.
Proof.
  intros D E.
  assert (F : shr_fexp prec emax (Zpos m) e loc_Exact
              = ({| shr_m := Zpos m; shr_r := false; shr_s := false |}, e)).
  { unfold shr_fexp. cbn [Zdigits2]. rewrite D.
    replace (fexp prec emax (24 + e) - e) with 0
      by (unfold fexp, emin, prec, emax; lia).
    reflexivity. }
  unfold binary_round_aux. rewrite F. cbn [shr_m loc_of_shr_record round_nearest_even].
  rewrite F. cbn [shr_m].
  replace (e <=? emax - prec) with true; [reflexivity|].
  symmetry. apply Z.leb_le. unfold emax, prec. lia.
Qed.

Lemma binary_round_int (s : bool) (p : positive) :
  Zpos p < 2 ^ 24 ->
  exists (m : positive) (e : Z),
    binary_round prec emax s p 0 = S754_finite s m e
    /\ bounded prec emax m e = true
    /\ Zpos m * 2 ^ (e + scale) = Zpos p * 2 ^ scale.
Proof.
  intros B.
  pose proof (digits2_pos_bounds p) as [L U].
  assert (D : Zpos (digits2_pos p) <= 24).
  { destruct (Z.le_gt_cases (Zpos (digits2_pos p)) 24) as [G|G]; [exact G|].
    exfalso.
    assert (2 ^ 24 <= 2 ^ (Zpos (digits2_pos p) - 1))
      by (apply Z.pow_le_mono_r; lia).
    lia. }
  clear B L U.
  unfold binary_round.
  replace (fexp prec emax (Zpos (digits2_pos p) + 0)) with (Zpos (digits2_pos p) - 24)
    by (unfold fexp, emin, prec, emax; lia).
  unfold shl_align.
  destruct (Zpos (digits2_pos p) - 24 - 0) as [|k|k] eqn:K.
  - exists p, 0.
    rewrite binary_round_aux_exact by lia.
    split; [reflexivity|]. split; [|reflexivity].
    unfold bounded, canonical_mantissa, fexp, emin, prec, emax.
    apply andb_true_intro. split; [apply Z.eqb_eq | apply Z.leb_le]; lia.
  - lia.
  - exists (Pos.iter xO p k), (Zpos (digits2_pos p) - 24).
    assert (DK : Zpos (digits2_pos (Pos.iter xO p k)) = 24).
    { rewrite digits2_pos_shift, Pos2Z.inj_add. lia. }
    rewrite binary_round_aux_exact by lia.
    split; [reflexivity|]. split.
    + unfold bounded, canonical_mantissa. rewrite DK.
      unfold fexp, emin, prec, emax.
      apply andb_true_intro. split; [apply Z.eqb_eq | apply Z.leb_le]; lia.
    + rewrite Zpos_shift.
      replace (Zpos (digits2_pos p) - 24) with (- Zpos k) by lia.
      unfold scale.
      replace (2 ^ 149) with (2 ^ (Zpos k + (- Zpos k + 149))) by (f_equal; lia).
      rewrite (Z.pow_add_r 2 (Zpos k) (- Zpos k + 149)) by lia. ring.
Qed.

(** The conversion of an integer below 2^24 in magnitude is exact. *)
Lemma float_of_Z_exact (z : Z) :
  - 2 ^ 24 < z < 2 ^ 24 ->
  valid_float (float_of_Z z)
  /\ scaled (float_of_Z z) = Some (z * 2 ^ scale)
  /\ is_nan (float_of_Z z) = false
  /\ is_inf (float_of_Z z) = false.
Proof.
  intros B. unfold float_of_Z, binary_normalize, valid_float.
  destruct z as [|p|p].
  - repeat split.
  - destruct (binary_round_int false p) as [m [e [R [V S]]]]; [lia|].
    rewrite R. cbn [valid_binary scaled cond_Zopp is_nan is_inf].
    rewrite S. split; [exact V|]. split; [reflexivity|]. split; reflexivity.
  - destruct (binary_round_int true p) as [m [e [R [V S]]]]; [lia|].
    rewrite R. cbn [valid_binary scaled cond_Zopp is_nan is_inf].
    rewrite S. split; [exact V|]. split; [f_equal; lia|]. split; reflexivity.
Qed.

Lemma magnitude_lt (m1 m2 : positive) (e1 e2 : Z) :
  bounded prec emax m1 e1 = true ->
  bounded prec emax m2 e2 = true ->
  e1 < e2 ->
  Zpos m1 * 2 ^ (e1 + scale) < Zpos m2 * 2 ^ (e2 + scale).
Proof.
  intros B1 B2 L.
  apply bounded_shape in B1, B2.
  pose proof (digits2_pos_bounds m1) as [_ U1].
  pose proof (digits2_pos_bounds m2) as [L2 _].
  assert (D2 : Zpos (digits2_pos m2) = 24) by lia.
  rewrite D2 in L2. change (2 ^ (24 - 1)) with 8388608 in L2.
  assert (U : Zpos m1 < 16777216).
  { apply Z.lt_le_trans with (1 := U1).
    change 16777216 with (2 ^ 24). apply Z.pow_le_mono_r; lia. }
  unfold scale.
  replace (e2 + 149) with ((e1 + 149) + (e2 - e1)) by lia.
  rewrite (Z.pow_add_r 2 (e1 + 149) (e2 - e1)) by lia.
  assert (A : 0 < 2 ^ (e1 + 149)) by (apply Z.pow_pos_nonneg; lia).
  assert (G : 2 ^ 1 <= 2 ^ (e2 - e1)) by (apply Z.pow_le_mono_r; lia).
  change (2 ^ 1) with 2 in G.
  set (a := 2 ^ (e1 + 149)) in *. set (b := 2 ^ (e2 - e1)) in *.
  clearbody a b.
  assert (H1 : a * 2 <= a * b) by (apply Z.mul_le_mono_nonneg_l; lia).
  assert (H2 : 8388608 * (a * 2) <= Zpos m2 * (a * b))
    by (apply Z.mul_le_mono_nonneg; lia).
  assert (H3 : Zpos m1 * a < 16777216 * a)
    by (apply Z.mul_lt_mono_pos_r; lia).
  lia.
Qed.

Lemma magnitude_compare (m1 m2 : positive) (e1 e2 : Z) :
  bounded prec emax m1 e1 = true ->
  bounded prec emax m2 e2 = true ->
  match e1 ?= e2 with
  | Lt => Lt
  | Gt => Gt
  | Eq => Pos.compare_cont Eq m1 m2
  end
  = (Zpos m1 * 2 ^ (e1 + scale) ?= Zpos m2 * 2 ^ (e2 + scale)).
Proof.
  intros B1 B2. symmetry.
  destruct (Z.compare_spec e1 e2) as [E|L|G].
  - subst e2.
    assert (P : 0 < 2 ^ (e1 + scale)).
    { apply Z.pow_pos_nonneg; [lia|]. apply bounded_shape in B1. unfold scale. lia. }
    change (Pos.compare_cont Eq m1 m2) with (m1 ?= m2)%positive.
    destruct (Pos.compare_spec m1 m2) as [E|L|G].
    + subst m2. apply Z.compare_refl.
    + apply Z.compare_lt_iff. apply Z.mul_lt_mono_pos_r; [exact P | lia].
    + apply Z.compare_gt_iff. apply Z.mul_lt_mono_pos_r; [exact P | lia].
  - apply Z.compare_lt_iff. apply magnitude_lt; assumption.
  - apply Z.compare_gt_iff. apply magnitude_lt; assumption.
Qed.

Lemma magnitude_pos (m : positive) (e : Z) :
  bounded prec emax m e = true -> 0 < Zpos m * 2 ^ (e + scale).
Proof.
  intros B. apply bounded_shape in B.
  apply Z.mul_pos_pos; [lia|].
  apply Z.pow_pos_nonneg; unfold scale; lia.
Qed.

(** On valid numbers, the comparison of the floating-point unit is the
    comparison of the values. *)
Lemma flt_scaled (x y : float) (sx sy : Z) :
  valid_float x -> valid_float y ->
  scaled x = Some sx -> scaled y = Some sy ->
  flt x y = (sx <? sy).
Proof.
  unfold valid_float.
  destruct x as [s1| | |s1 m1 e1]; try discriminate;
    destruct y as [s2| | |s2 m2 e2]; try discriminate;
    unfold valid_binary, scaled; intros V1 V2 E1 E2;
    apply (f_equal (fun o => match o with Some v => v | None => 0 end)) in E1, E2;
    subst sx sy.
  - reflexivity.
  - pose proof (magnitude_pos m2 e2 V2).
    unfold flt, SFltb, SFcompare.
    destruct s2; cbn [cond_Zopp]; symmetry;
      [apply Z.ltb_ge | apply Z.ltb_lt]; lia.
  - pose proof (magnitude_pos m1 e1 V1).
    unfold flt, SFltb, SFcompare.
    destruct s1; cbn [cond_Zopp]; symmetry;
      [apply Z.ltb_lt | apply Z.ltb_ge]; lia.
  - pose proof (magnitude_pos m1 e1 V1).
    pose proof (magnitude_pos m2 e2 V2).
    pose proof (magnitude_compare m1 m2 e1 e2 V1 V2) as C.
    unfold flt, SFltb, SFcompare.
    destruct s1, s2; cbn [cond_Zopp].
    + replace (match e1 ?= e2 with
               | Eq => CompOpp (Pos.compare_cont Eq m1 m2)
               | Lt => Gt
               | Gt => Lt
               end)
        with (CompOpp (Zpos m1 * 2 ^ (e1 + scale) ?= Zpos m2 * 2 ^ (e2 + scale)))
        by (rewrite <- C; destruct (e1 ?= e2); reflexivity).
      destruct (Z.compare_spec (Zpos m1 * 2 ^ (e1 + scale)) (Zpos m2 * 2 ^ (e2 + scale)));
        cbn [CompOpp]; symmetry; [apply Z.ltb_ge | apply Z.ltb_ge | apply Z.ltb_lt]; lia.
    + symmetry. apply Z.ltb_lt. lia.
    + symmetry. apply Z.ltb_ge. lia.
    + rewrite C.
      destruct (Z.compare_spec (Zpos m1 * 2 ^ (e1 + scale)) (Zpos m2 * 2 ^ (e2 + scale)));
        symmetry; [apply Z.ltb_ge | apply Z.ltb_lt | apply Z.ltb_ge]; lia.
Qed.

(** The comparison of an integer with a setpoint. *)
Lemma flt_float_of_Z (c : Z) (f : float) :
  - 2 ^ 24 < c < 2 ^ 24 -> valid_float f ->
  flt (float_of_Z c) f = true <-> Zlt_float c f.
Proof.
  intros B V.
  destruct (float_of_Z_exact c B) as [Vc [Sc [Nc Ic]]].
  destruct f as [s| s | |s m e].
  - rewrite (flt_scaled _ _ _ 0 Vc V Sc eq_refl).
    cbn [Zlt_float]. rewrite Z.ltb_lt.
    assert (0 < 2 ^ scale) by (apply Z.pow_pos_nonneg; unfold scale; lia).
    nia.
  - cbn [Zlt_float].
    destruct (float_of_Z c) as [s1| | |s1 m1 e1]; try discriminate;
      unfold flt, SFltb, SFcompare; destruct s; intuition congruence.
  - cbn [Zlt_float].
    destruct (float_of_Z c) as [s1| | |s1 m1 e1]; try discriminate;
      unfold flt, SFltb, SFcompare; intuition congruence.
  - rewrite (flt_scaled _ _ _ _ Vc V Sc eq_refl).
    cbn [Zlt_float]. apply Z.ltb_lt.
Qed.

Lemma Zlt_float_of_Z (c s : Z) :
  - 2 ^ 24 < s < 2 ^ 24 -> Zlt_float c (float_of_Z s) <-> c < s.
Proof.
  intros B.
  destruct (float_of_Z_exact s B) as [_ [Ss _]].
  assert (P : 0 < 2 ^ scale) by (apply Z.pow_pos_nonneg; unfold scale; lia).
  destruct (float_of_Z s) as [s1| | |s1 m1 e1]; try discriminate;
    unfold scaled in Ss;
    apply (f_equal (fun o => match o with Some v => v | None => 0 end)) in Ss;
    unfold Zlt_float.
  - assert (s = 0) by nia. subst. lia.
  - rewrite Ss. split; intros H.
    + apply Z.mul_lt_mono_pos_r in H; assumption.
    + apply Z.mul_lt_mono_pos_r; assumption.
Qed.

(** C1: the control law returns [maximum_control_action] = 250 exactly when
    the measured count is less than the value of the setpoint, and
    [minimum_control_action] = 0 otherwise (a NaN setpoint included, than
    which nothing is less); it returns nothing else, and leaves the three
    referenced variables as they were.  At the boundaries, with an integer
    setpoint: a count equal to the setpoint gives 0, one less gives 250, one
    more gives 0.  As a function of its arguments alone, it gives the same
    result on the same arguments. *)
Theorem C1_bang_bang_control_law :
  forall (currentCount : Z) (sp err : float),
    INT_MIN <= currentCount <= INT_MAX ->
    valid_float sp ->
    let r := CalculateControlAction currentCount sp err in
    (fst r = maximum_control_action <-> Zlt_float currentCount sp)
    /\ (fst r = minimum_control_action <-> ~ Zlt_float currentCount sp)
    /\ (fst r = minimum_control_action \/ fst r = maximum_control_action)
    /\ snd r = (currentCount, sp, err)
    /\ maximum_control_action = 250
    /\ minimum_control_action = 0
    /\ fst (CalculateControlAction currentCount (float_of_Z currentCount) err)
       = minimum_control_action
    /\ fst (CalculateControlAction currentCount (float_of_Z (currentCount + 1)) err)
       = maximum_control_action
    /\ fst (CalculateControlAction currentCount (float_of_Z (currentCount - 1)) err)
       = minimum_control_action.
Proof.
  intros c sp err B V r. unfold INT_MIN, INT_MAX in B.
  assert (B24 : - 2 ^ 24 < c < 2 ^ 24) by (change (2 ^ 24) with 16777216; lia).
  assert (K : forall f, valid_float f ->
                (fst (CalculateControlAction c f err) = maximum_control_action
                 <-> Zlt_float c f)
                /\ (fst (CalculateControlAction c f err) = minimum_control_action
                    <-> ~ Zlt_float c f)).
  { intros f Vf. pose proof (flt_float_of_Z c f B24 Vf) as F.
    unfold CalculateControlAction.
    destruct (flt (float_of_Z c) f); cbn [fst];
      unfold maximum_control_action, minimum_control_action.
    - split; split.
      + intros _. apply F. reflexivity.
      + reflexivity.
      + discriminate.
      + intros H. exfalso. apply H. apply F. reflexivity.
    - split; split.
      + discriminate.
      + intros H. apply F in H. discriminate.
      + intros _ H. apply F in H. discriminate.
      + reflexivity. }
  assert (I : forall s, - 2 ^ 24 < s < 2 ^ 24 -> valid_float (float_of_Z s))
    by (intros s Bs; apply float_of_Z_exact; exact Bs).
  subst r.
  split; [apply K; exact V|]. split; [apply K; exact V|].
  split; [apply CalculateControlAction_cases|].
  split; [apply CalculateControlAction_refs|].
  split; [reflexivity|]. split; [reflexivity|].
  split; [|split].
  - apply K; [apply I; exact B24|]. rewrite Zlt_float_of_Z by exact B24. lia.
  - assert (B1 : - 2 ^ 24 < c + 1 < 2 ^ 24) by (change (2 ^ 24) with 16777216; lia).
    apply K; [apply I; exact B1|]. rewrite Zlt_float_of_Z by exact B1. lia.
  - assert (B1 : - 2 ^ 24 < c - 1 < 2 ^ 24) by (change (2 ^ 24) with 16777216; lia).
    apply K; [apply I; exact B1|]. rewrite Zlt_float_of_Z by exact B1. lia.
Qed.

Lemma C1_bang_bang_control_law_witness :
  INT_MIN <= 19 <= INT_MAX
  /\ valid_float (float_of_Z 20)
  /\ Zlt_float 19 (float_of_Z 20)
  /\ ~ Zlt_float 20 (float_of_Z 20).
Proof.
  assert (B19 : INT_MIN <= 19 <= INT_MAX) by (unfold INT_MIN, INT_MAX; lia).
  assert (B20 : INT_MIN <= 20 <= INT_MAX) by (unfold INT_MIN, INT_MAX; lia).
  assert (V : valid_float (float_of_Z 20)) by reflexivity.
  split; [exact B19|]. split; [exact V|]. split.
  - apply (proj1 (C1_bang_bang_control_law 19 (float_of_Z 20) (float_of_Z 0) B19 V)).
    reflexivity.
  - apply (proj1 (proj2 (C1_bang_bang_control_law 20 (float_of_Z 20) (float_of_Z 0) B20 V))).
    reflexivity.
Defined.

(** * Further properties of the sketch *)

(** ** Timer1: the stored level and repeated samples *)

(** X1: after every call of the Timer1 routine the stored level is the
    level just read, and the pulse counter has advanced exactly when that
    level differs from the one stored before. *)
Theorem X1_timer1_tracks_level :
  forall (pin : bool) (st : State),
    lastStateHigh (TIMER1_COMPA_vect pin st) = pin
    /\ encoderCounts (TIMER1_COMPA_vect pin st)
       = (if xorb (lastStateHigh st) pin then uint_incr (encoderCounts st)
          else encoderCounts st).
Proof.
  intros pin st.
  pose proof (TIMER1_edge pin st) as T.
  rewrite edge_detector_sample in T.
  split; [exact (f_equal fst T) | exact (f_equal snd T)].
Qed.

(** X2: sampling the same level twice in a row is the same as sampling it
    once: a level that lasts over several samples is counted at most once,
    however often Timer1 fires meanwhile. *)
Theorem X2_timer1_repeated_sample :
  forall (pin : bool) (st : State),
    TIMER1_COMPA_vect pin (TIMER1_COMPA_vect pin st) = TIMER1_COMPA_vect pin st.
Proof.
  intros pin st. unfold TIMER1_COMPA_vect.
  destruct st as [a b c d e f g h i j k l m n].
  destruct pin, f; reflexivity.
Qed.

(** ** What an execution never touches *)

Lemma TIMER1_keeps (pin : bool) (st : State) :
  TIMER1_COMPA_vect pin st
  = set_encoderCounts (encoderCounts (TIMER1_COMPA_vect pin st))
      (set_lastStateHigh (lastStateHigh (TIMER1_COMPA_vect pin st))
         (set_encoderCurrentValue (Arduino.digitalRead pin) st)).
Proof.
  unfold TIMER1_COMPA_vect.
  destruct st as [a b c d e f g h i j k l m n].
  destruct pin, f; reflexivity.
Qed.

Lemma TIMER2_effect (micros : N) (st : State) :
  TIMER2_COMPA_vect micros st
  = (if (5 <=? divide_frequency_counter st)%N then
       let c := int_of_uint (encoderCounts st) in
       let a := fst (CalculateControlAction c (setpoint st) (accumulated_error st)) in
       set_divide_frequency_counter 1
         (Serial_print (telemetry_line micros c a st)
            (analogWrite motorPWMPin a (set_encoderCounts 0 st)))
     else set_divide_frequency_counter (divide_frequency_counter st + 1) st).
Proof.
  unfold TIMER2_COMPA_vect.
  destruct (N.leb_spec 5 (divide_frequency_counter st)) as [H|H].
  - rewrite control_cycle_effect. cbn zeta.
    destruct st; reflexivity.
  - f_equal. apply uint_incr_small. lia.
Qed.

Lemma step_dead_state (ev : Event) (st : State) :
  include_time_in_data (step st ev) = include_time_in_data st
  /\ min_accumulated_error (step st ev) = min_accumulated_error st
  /\ max_accumulated_error (step st ev) = max_accumulated_error st
  /\ latestReading (step st ev) = latestReading st
  /\ input (step st ev) = input st
  /\ output (step st ev) = output st
  /\ accumulated_error (step st ev) = accumulated_error st.
Proof.
  destruct ev as [pin|micros|a0]; cbn [step].
  - rewrite TIMER1_keeps. repeat split.
  - rewrite TIMER2_effect.
    destruct (5 <=? divide_frequency_counter st)%N; repeat split.
  - repeat split.
Qed.

(** X4: no execution changes the telemetry option, the two integrator
    bounds, [latestReading], [input], [output] or the accumulated error:
    whatever the timers and the main loop do, these variables keep the
    values they had. *)
Theorem X4_dead_state_preserved :
  forall (evs : list Event) (st : State),
    include_time_in_data (run st evs) = include_time_in_data st
    /\ min_accumulated_error (run st evs) = min_accumulated_error st
    /\ max_accumulated_error (run st evs) = max_accumulated_error st
    /\ latestReading (run st evs) = latestReading st
    /\ input (run st evs) = input st
    /\ output (run st evs) = output st
    /\ accumulated_error (run st evs) = accumulated_error st.
Proof.
  induction evs as [|ev evs IH]; intros st.
  - repeat split.
  - cbn [run fold_left]. fold (run (step st ev) evs).
    destruct (IH (step st ev)) as [I1 [I2 [I3 [I4 [I5 [I6 I7]]]]]].
    destruct (step_dead_state ev st) as [S1 [S2 [S3 [S4 [S5 [S6 S7]]]]]].
    rewrite I1, I2, I3, I4, I5, I6, I7.
    repeat split; assumption.
Qed.

(** ** The values written to the motor *)

Lemma step_pwm_writes (ev : Event) (st : State) :
  pwm_writes (step st ev) = pwm_writes st
  \/ exists a : Z,
       (a = minimum_control_action \/ a = maximum_control_action)
       /\ pwm_writes (step st ev) = pwm_writes st ++ [(motorPWMPin, a)].
Proof.
  destruct ev as [pin|micros|a0]; cbn [step].
  - left. apply TIMER1_frame.
  - rewrite TIMER2_effect.
    destruct (5 <=? divide_frequency_counter st)%N; [|left; reflexivity].
    right. eexists. split; [apply CalculateControlAction_cases | reflexivity].
  - left. reflexivity.
Qed.

Lemma run_pwm_writes (evs : list Event) :
  forall st : State,
    Forall bang_bang_write (pwm_writes st) ->
    Forall bang_bang_write (pwm_writes (run st evs)).
Proof.
  induction evs as [|ev evs IH]; intros st H; [exact H|].
  cbn [run fold_left]. fold (run (step st ev) evs).
  apply IH.
  destruct (step_pwm_writes ev st) as [E|[a [A E]]]; rewrite E; [exact H|].
  apply Forall_app. split; [exact H|].
  constructor; [|constructor].
  split; [reflexivity | exact A].
Qed.

(** X3: along every execution from startup, every value written to the PWM
    hardware goes to the motor pin and is one of the two actuation levels,
    0 or 250: the controller never commands anything in between, whatever
    the encoder, the analog input and the timers do. *)
Theorem X3_only_two_levels_written :
  forall (evs : list Event) (pin value : Z),
    In (pin, value) (pwm_writes (run booted evs)) ->
    pin = 6 /\ (value = 0 \/ value = 250).
Proof.
  intros evs pin value I.
  assert (F : Forall bang_bang_write (pwm_writes (run booted evs)))
    by (apply run_pwm_writes; constructor).
  rewrite Forall_forall in F. exact (F (pin, value) I).
Qed.

Lemma X3_only_two_levels_written_witness :
  In (6, 250) (pwm_writes (run booted (repeat (Timer2 0) 6)))
  /\ (6 = 6 /\ (250 = 0 \/ 250 = 250)).
Proof.
  assert (I : In (6, 250) (pwm_writes (run booted (repeat (Timer2 0) 6))))
    by (left; reflexivity).
  split; [exact I|].
  exact (X3_only_two_levels_written (repeat (Timer2 0) 6) 6 250 I).
Defined.

(** ** The timestamp *)

(** X5: with the timestamp disabled, what the Timer2 routine does is
    independent of the time [micros()] returns: the time is computed but
    reaches neither the motor nor the telemetry. *)
Theorem X5_time_unused_without_timestamp :
  forall (micros1 micros2 : N) (st : State),
    include_time_in_data st = false ->
    TIMER2_COMPA_vect micros1 st = TIMER2_COMPA_vect micros2 st.
Proof.
  intros m1 m2 st H. rewrite !TIMER2_effect.
  destruct (5 <=? divide_frequency_counter st)%N; [|reflexivity].
  cbn zeta. unfold telemetry_line. rewrite H. reflexivity.
Qed.

Lemma X5_time_unused_without_timestamp_witness :
  TIMER2_COMPA_vect 0 (run booted (repeat (Timer2 0) 5))
  = TIMER2_COMPA_vect 123456789 (run booted (repeat (Timer2 0) 5)).
Proof.
  apply (X5_time_unused_without_timestamp 0 123456789
           (run booted (repeat (Timer2 0) 5))).
  reflexivity.
Defined.

(** ** The control law on integer and on special setpoints *)

Lemma CalculateControlAction_integer (c s : Z) (e : float) :
  INT_MIN <= c <= INT_MAX -> - 2 ^ 24 < s < 2 ^ 24 ->
  fst (CalculateControlAction c (float_of_Z s) e)
  = if c <? s then maximum_control_action else minimum_control_action.
Proof.
  unfold INT_MIN, INT_MAX. intros Bc Bs.
  assert (B24 : - 2 ^ 24 < c < 2 ^ 24) by (change (2 ^ 24) with 16777216; lia).
  pose proof (flt_float_of_Z c (float_of_Z s) B24
                (proj1 (float_of_Z_exact s Bs))) as F.
  rewrite (Zlt_float_of_Z c s Bs) in F.
  unfold CalculateControlAction.
  destruct (flt (float_of_Z c) (float_of_Z s)); cbn [fst];
    destruct (Z.ltb_spec c s) as [L|L]; try reflexivity.
  - exfalso. assert (c < s) by (apply F; reflexivity). lia.
  - apply F in L. discriminate.
Qed.

(** X6: when the setpoint holds an integer, as [setup] and the main loop
    leave it, the control law compares integers: for a count [c] and a
    setpoint [s] it returns 250 if c < s and 0 otherwise; the conversion of
    the count to [float] loses nothing. *)
Theorem X6_control_law_on_integer_setpoints :
  forall (c s : Z) (e : float),
    INT_MIN <= c <= INT_MAX ->
    - 16777216 < s < 16777216 ->
    fst (CalculateControlAction c (float_of_Z s) e) = if c <? s then 250 else 0.
Proof.
  intros c s e Bc Bs. apply CalculateControlAction_integer; assumption.
Qed.

Lemma X6_control_law_on_integer_setpoints_witness :
  fst (CalculateControlAction (-3) (float_of_Z 50) (float_of_Z 0)) = 250
  /\ fst (CalculateControlAction 50 (float_of_Z 50) (float_of_Z 0)) = 0.
Proof.
  split.
  - refine (X6_control_law_on_integer_setpoints (-3) 50 (float_of_Z 0) _ _);
      unfold INT_MIN, INT_MAX; lia.
  - refine (X6_control_law_on_integer_setpoints 50 50 (float_of_Z 0) _ _);
      unfold INT_MIN, INT_MAX; lia.
Defined.

Lemma Zlt_float_mono (c1 c2 : Z) (f : float) :
  c1 <= c2 -> Zlt_float c2 f -> Zlt_float c1 f.
Proof.
  intros L. assert (P : 0 < 2 ^ scale) by (apply Z.pow_pos_nonneg; unfold scale; lia).
  destruct f as [s|s| |s m e]; unfold Zlt_float; try tauto; try lia.
  intros H. apply Z.le_lt_trans with (2 := H).
  apply Z.mul_le_mono_nonneg_r; lia.
Qed.

(** X7: the control law never answers a larger count with a larger action:
    for a fixed setpoint, if c1 <= c2 then the action for c2 is at most the
    action for c1. *)
Theorem X7_control_law_antitone_in_count :
  forall (c1 c2 : Z) (sp e : float),
    INT_MIN <= c1 -> c1 <= c2 -> c2 <= INT_MAX ->
    valid_float sp ->
    fst (CalculateControlAction c2 sp e) <= fst (CalculateControlAction c1 sp e).
Proof.
  unfold INT_MIN, INT_MAX. intros c1 c2 sp e B1 L B2 V.
  assert (B24 : - 2 ^ 24 < c1 < 2 ^ 24) by (change (2 ^ 24) with 16777216; lia).
  assert (B24' : - 2 ^ 24 < c2 < 2 ^ 24) by (change (2 ^ 24) with 16777216; lia).
  pose proof (flt_float_of_Z c1 sp B24 V) as F1.
  pose proof (flt_float_of_Z c2 sp B24' V) as F2.
  unfold CalculateControlAction.
  destruct (flt (float_of_Z c2) sp); cbn [fst].
  - assert (Z1 : Zlt_float c1 sp)
      by (apply Zlt_float_mono with (c2 := c2); [exact L | apply F2; reflexivity]).
    apply F1 in Z1. rewrite Z1. cbn [fst]. lia.
  - destruct (flt (float_of_Z c1) sp); cbn [fst];
      unfold minimum_control_action, maximum_control_action; lia.
Qed.

Lemma X7_control_law_antitone_in_count_witness :
  fst (CalculateControlAction 30 (float_of_Z 20) (float_of_Z 0))
  <= fst (CalculateControlAction 10 (float_of_Z 20) (float_of_Z 0)).
Proof.
  refine (X7_control_law_antitone_in_count 10 30 (float_of_Z 20) (float_of_Z 0) _ _ _ _).
  - unfold INT_MIN; lia.
  - lia.
  - unfold INT_MAX; lia.
  - reflexivity.
Defined.

(** X8: the special setpoints.  With a NaN setpoint the control law returns
    0 for every count: the motor is never driven.  With an infinite setpoint
    it returns 250 for every count if the infinity is positive, and 0 if it
    is negative. *)
Theorem X8_control_law_on_special_setpoints :
  forall (c : Z) (e : float),
    INT_MIN <= c <= INT_MAX ->
    fst (CalculateControlAction c S754_nan e) = 0
    /\ fst (CalculateControlAction c (S754_infinity false) e) = 250
    /\ fst (CalculateControlAction c (S754_infinity true) e) = 0.
Proof.
  unfold INT_MIN, INT_MAX. intros c e B.
  assert (B24 : - 2 ^ 24 < c < 2 ^ 24) by (change (2 ^ 24) with 16777216; lia).
  destruct (float_of_Z_exact c B24) as [_ [_ [Nn Ni]]].
  unfold CalculateControlAction.
  destruct (float_of_Z c) as [s|s| |s m x]; try discriminate; repeat split.
Qed.

Lemma X8_control_law_on_special_setpoints_witness :
  fst (CalculateControlAction 0 S754_nan (float_of_Z 0)) = 0
  /\ fst (CalculateControlAction 32767 (S754_infinity false) (float_of_Z 0)) = 250.
Proof.
  split.
  - refine (proj1 (X8_control_law_on_special_setpoints 0 (float_of_Z 0) _)).
    unfold INT_MIN, INT_MAX; lia.
  - refine (proj1 (proj2 (X8_control_law_on_special_setpoints 32767 (float_of_Z 0) _))).
    unfold INT_MIN, INT_MAX; lia.
Defined.

(** ** The setpoint between two stores of the main loop *)

Lemma map_analog_range (a0 : Z) :
  0 <= a0 <= 1023 -> 0 <= Arduino.map a0 0 1023 0 50 <= 50.
Proof.
  intros H. rewrite map_analog by exact H.
  split; [apply Z.div_pos; lia | apply Z.div_le_upper_bound; lia].
Qed.

Lemma step_setpoint (ev : Event) (st : State) :
  setpoint (step st ev)
  = match ev with
    | MainLoop a0 => float_of_Z (Arduino.map a0 0 1023 0 50)
    | _ => setpoint st
    end.
Proof.
  destruct ev as [pin|micros|a0]; cbn [step].
  - apply TIMER1_frame.
  - rewrite TIMER2_effect.
    destruct (5 <=? divide_frequency_counter st)%N; reflexivity.
  - reflexivity.
Qed.

Lemma run_timers_setpoint (evs : list Event) :
  forall st : State,
    timers_only evs = true -> setpoint (run st evs) = setpoint st.
Proof.
  induction evs as [|ev evs IH]; intros st H; [reflexivity|].
  cbn [run fold_left]. fold (run (step st ev) evs).
  destruct ev as [pin|micros|a0]; cbn [timers_only] in H; try discriminate;
    rewrite (IH _ H), step_setpoint; reflexivity.
Qed.

(** X9: neither interrupt routine writes the setpoint: over any sequence of
    firings of the two timers it keeps the value it had.  So it is 20 from
    [setup] until the main loop first stores, and once [loop] has stored
    the mapping of a 10-bit reading [a0] it is the integer a0 * 50 / 1023,
    between 0 and 50, until [loop] stores again. *)
Theorem X9_setpoint_between_stores :
  forall (st : State) (a0 : Z) (evs : list Event),
    0 <= a0 <= 1023 ->
    timers_only evs = true ->
    setpoint (run st evs) = setpoint st
    /\ setpoint (run booted evs) = float_of_Z 20
    /\ setpoint (run (loop a0 st) evs) = float_of_Z (a0 * 50 / 1023)
    /\ 0 <= a0 * 50 / 1023 <= 50.
Proof.
  intros st a0 evs A T.
  rewrite !run_timers_setpoint by exact T.
  split; [reflexivity|]. split; [reflexivity|].
  pose proof (map_analog_range a0 A) as R.
  rewrite map_analog in R by exact A.
  split; [|exact R].
  cbn [loop setpoint set_setpoint]. rewrite map_analog by exact A. reflexivity.
Qed.

Lemma X9_setpoint_between_stores_witness :
  setpoint (run (loop 700 booted)
              [Timer1 true; Timer2 0; Timer1 false; Timer2 1; Timer2 2;
               Timer2 3; Timer2 4; Timer2 5; Timer1 true])
  = float_of_Z 34.
Proof.
  refine (proj1 (proj2 (proj2 (X9_setpoint_between_stores booted 700
            [Timer1 true; Timer2 0; Timer1 false; Timer2 1; Timer2 2;
             Timer2 3; Timer2 4; Timer2 5; Timer1 true] _ _)))).
  - lia.
  - reflexivity.
Defined.

Lemma to_int_range (z : Z) : INT_MIN <= to_int z <= INT_MAX.
Proof.
  unfold to_int, INT_MIN, INT_MAX.
  pose proof (Z.mod_pos_bound (z + 32768) 65536). lia.
Qed.

(** X10: a control cycle compares the snapshot with the setpoint as
    integers.  When the Timer2 routine finds the decimation counter at 5 or
    more and the setpoint holding an integer [k], it appends exactly one
    write to the motor pin: 250 if the snapshot of the pulse counter, read
    as a signed [int], is below [k], and 0 otherwise; it leaves the
    setpoint as it was. *)
Theorem X10_cycle_compares_snapshot_with_setpoint :
  forall (st : State) (micros : N) (k : Z),
    (5 <= divide_frequency_counter st)%N ->
    - 16777216 < k < 16777216 ->
    setpoint st = float_of_Z k ->
    pwm_writes (TIMER2_COMPA_vect micros st)
    = pwm_writes st
      ++ [(motorPWMPin, if fst (snapshot st) <? k then 250 else 0)]
    /\ setpoint (TIMER2_COMPA_vect micros st) = float_of_Z k.
Proof.
  intros st micros k C K S.
  rewrite TIMER2_effect.
  replace (5 <=? divide_frequency_counter st)%N with true
    by (symmetry; apply N.leb_le; exact C).
  cbn -[CalculateControlAction int_of_uint].
  rewrite S, CalculateControlAction_integer.
  - split; reflexivity.
  - apply to_int_range.
  - change (2 ^ 24) with 16777216. exact K.
Qed.

Lemma X10_cycle_compares_snapshot_with_setpoint_witness :
  pwm_writes (TIMER2_COMPA_vect 5
                (run booted [Timer1 true; Timer2 0; Timer2 1; Timer1 false;
                             Timer2 2; Timer2 3; Timer2 4]))
  = [(motorPWMPin, 250)].
Proof.
  refine (proj1 (X10_cycle_compares_snapshot_with_setpoint
            (run booted [Timer1 true; Timer2 0; Timer2 1; Timer1 false;
                         Timer2 2; Timer2 3; Timer2 4])
            5 20 _ _ _)).
  - vm_compute. discriminate.
  - lia.
  - reflexivity.
Defined.

(** ** The mapping of the analog reading *)

(** X11: on 10-bit readings the mapping of the main loop never decreases
    when the reading increases; it gives 0 for the readings up to 20 and
    for no other, and reaches 50 at the full-scale reading 1023 only. *)
Theorem X11_analog_mapping_shape :
  forall a b : Z,
    0 <= a -> a <= b -> b <= 1023 ->
    Arduino.map a 0 1023 0 50 <= Arduino.map b 0 1023 0 50
    /\ (Arduino.map a 0 1023 0 50 = 0 <-> a <= 20)
    /\ (Arduino.map a 0 1023 0 50 = 50 <-> a = 1023).
Proof.
  intros a b A L B.
  rewrite !map_analog by lia.
  split; [apply Z.div_le_mono; lia|].
  split; split; intros H.
  - pose proof (Z.mul_div_le (a * 50) 1023).
    pose proof (Z.mod_pos_bound (a * 50) 1023).
    pose proof (Z.div_mod (a * 50) 1023). lia.
  - apply Z.div_small. lia.
  - pose proof (Z.mul_div_le (a * 50) 1023). lia.
  - subst a. reflexivity.
Qed.

Lemma X11_analog_mapping_shape_witness :
  Arduino.map 20 0 1023 0 50 <= Arduino.map 21 0 1023 0 50
  /\ (Arduino.map 20 0 1023 0 50 = 0 <-> 20 <= 20).
Proof.
  assert (A : 0 <= 20) by lia.
  assert (L : 20 <= 21) by lia.
  assert (B : 21 <= 1023) by lia.
  destruct (X11_analog_mapping_shape 20 21 A L B) as [M [Z0 _]].
  split; [exact M | exact Z0].
Defined.

(** ** The snapshot as a signed integer *)

Lemma step_counts_range (ev : Event) (st : State) :
  (encoderCounts st < 65536)%N -> (encoderCounts (step st ev) < 65536)%N.
Proof.
  intros H. destruct ev as [pin|micros|a0]; cbn [step].
  - pose proof (f_equal snd (TIMER1_edge pin st)) as T.
    rewrite edge_detector_sample in T. cbn [snd] in T. rewrite T.
    destruct (xorb (lastStateHigh st) pin); [|exact H].
    unfold uint_incr, to_uint, UINT_MODULUS. apply N.mod_lt. discriminate.
  - rewrite TIMER2_effect.
    destruct (5 <=? divide_frequency_counter st)%N; cbn; [lia | exact H].
  - exact H.
Qed.

Lemma run_counts_range (evs : list Event) :
  forall st : State,
    (encoderCounts st < 65536)%N -> (encoderCounts (run st evs) < 65536)%N.
Proof.
  induction evs as [|ev evs IH]; intros st H; [exact H|].
  cbn [run fold_left]. fold (run (step st ev) evs).
  apply IH. apply step_counts_range. exact H.
Qed.

(** X12: the snapshot converts the unsigned pulse counter to a signed
    [int].  At every point of every execution from startup the counter is
    below 65536; the snapshot is the counter itself while it is below
    32768, and the counter minus 65536, a negative number, from 32768 on. *)
Theorem X12_snapshot_is_signed :
  forall evs : list Event,
    let st := run booted evs in
    (encoderCounts st < 65536)%N
    /\ INT_MIN <= fst (snapshot st) <= INT_MAX
    /\ fst (snapshot st)
       = (if (encoderCounts st <? 32768)%N then Z.of_N (encoderCounts st)
          else Z.of_N (encoderCounts st) - 65536).
Proof.
  intros evs st.
  assert (R : (encoderCounts st < 65536)%N)
    by (apply run_counts_range; reflexivity).
  split; [exact R|]. split; [apply to_int_range|].
  unfold snapshot, int_of_uint, to_int. cbn [fst].
  destruct (N.ltb_spec (encoderCounts st) 32768) as [L|L].
  - rewrite Z.mod_small by lia. lia.
  - replace (Z.of_N (encoderCounts st) + 32768)
      with (Z.of_N (encoderCounts st) - 32768 + 1 * 65536) by lia.
    rewrite Z.mod_add by lia.
    rewrite Z.mod_small by lia. lia.
Qed.

(** ** One telemetry line per control cycle *)

Lemma line_feeds_app (a b : string) :
  line_feeds (a ++ b) = (line_feeds a + line_feeds b)%nat.
Proof.
  induction a as [|x a IH]; cbn [append line_feeds]; [reflexivity|].
  rewrite IH. lia.
Qed.

Lemma digit_char_no_line_feed (c : N) :
  (c < 10)%N -> Ascii.eqb (Arduino.Print.digit_char c) (ascii_of_nat 10) = false.
Proof.
  intros H.
  assert (D : (c = 0 \/ c = 1 \/ c = 2 \/ c = 3 \/ c = 4
               \/ c = 5 \/ c = 6 \/ c = 7 \/ c = 8 \/ c = 9)%N) by lia.
  repeat (destruct D as [D|D]; [subst c; reflexivity|]).
  subst c. reflexivity.
Qed.

Lemma printNumber_loop_no_line_feed (room : nat) :
  forall (n : N) (str : string),
    line_feeds (Arduino.Print.printNumber_loop room n 10 str) = line_feeds str.
Proof.
  induction room as [|room IH]; intros n str; cbn [Arduino.Print.printNumber_loop];
    [reflexivity|].
  assert (E : line_feeds (String (Arduino.Print.digit_char (n mod 10)) str)
              = line_feeds str).
  { cbn [line_feeds]. rewrite digit_char_no_line_feed; [reflexivity|].
    apply N.mod_lt. discriminate. }
  destruct (n / 10 =? 0)%N; [exact E|].
  rewrite IH. exact E.
Qed.

Lemma print_ulong_no_line_feed (n : N) :
  line_feeds (Arduino.Print.print_ulong n) = O.
Proof.
  unfold Arduino.Print.print_ulong, Arduino.Print.printNumber, Arduino.Print.DEC.
  cbn [N.ltb N.compare Pos.compare Pos.compare_cont].
  apply printNumber_loop_no_line_feed.
Qed.

Lemma print_int_no_line_feed (n : Z) :
  line_feeds (Arduino.Print.print_int n) = O.
Proof.
  unfold Arduino.Print.print_int, Arduino.Print.print_long.
  destruct (n <? 0).
  - cbn [line_feeds]. change (Ascii.eqb "-" (ascii_of_nat 10)) with false.
    apply print_ulong_no_line_feed.
  - apply print_ulong_no_line_feed.
Qed.

Lemma printFloat_digits_no_line_feed (digits : nat) :
  forall remainder : float,
    line_feeds (Arduino.Print.printFloat_digits digits remainder) = O.
Proof.
  induction digits as [|digits IH]; intros r; cbn [Arduino.Print.printFloat_digits];
    [reflexivity|].
  rewrite line_feeds_app, print_ulong_no_line_feed, IH. reflexivity.
Qed.

Lemma printFloat_no_line_feed (number : float) (digits : nat) :
  line_feeds (Arduino.Print.printFloat number digits) = O.
Proof.
  unfold Arduino.Print.printFloat.
  destruct (is_nan number); [reflexivity|].
  destruct (is_inf number); [reflexivity|].
  destruct (flt (float_of_Z 4294967040) number); [reflexivity|].
  destruct (flt number (float_of_Z (-4294967040))); [reflexivity|].
  rewrite !line_feeds_app, print_ulong_no_line_feed, printFloat_digits_no_line_feed.
  destruct (flt number (float_of_Z 0)), (0 <? digits)%nat; reflexivity.
Qed.

Lemma append_empty_r (a : string) : (a ++ EmptyString)%string = a.
Proof.
  induction a as [|x a IH]; cbn [append]; [reflexivity|]. now rewrite IH.
Qed.

(** The telemetry of one control cycle is one line. *)
Lemma telemetry_line_one_line (micros : N) (c a : Z) (st : State) :
  one_line (telemetry_line micros c a st).
Proof.
  unfold telemetry_line, Arduino.Print.println_float, Arduino.Print.print_float.
  exists ((if include_time_in_data st then
             Arduino.Print.printFloat
               (fdiv (float_of_Z (Z.of_N micros)) (float_of_Z 1000000)) 4 ++ ","
           else EmptyString)
          ++ Arduino.Print.print_int c ++ ".0" ++ ","
          ++ Arduino.Print.printFloat (setpoint st) 2 ++ ","
          ++ Arduino.Print.printFloat (fdiv (float_of_Z a) (float_of_Z 10)) 2)%string.
  split.
  - rewrite !append_assoc. reflexivity.
  - rewrite !line_feeds_app, print_int_no_line_feed, !printFloat_no_line_feed.
    destruct (include_time_in_data st).
    + rewrite line_feeds_app, printFloat_no_line_feed. reflexivity.
    + reflexivity.
Qed.

(** An event either prints nothing and runs no control cycle, or runs one
    control cycle and prints one line. *)
Lemma step_serial (ev : Event) (st : State) :
  (serial (step st ev) = serial st /\ cycles (step st ev) = cycles st)
  \/ (exists l : string,
        one_line l
        /\ serial (step st ev) = (serial st ++ l)%string
        /\ cycles (step st ev) = S (cycles st)).
Proof.
  rewrite step_cycles.
  destruct ev as [pin|micros|a0]; cbn [step].
  - left. split; [apply TIMER1_frame | reflexivity].
  - rewrite TIMER2_effect.
    destruct (5 <=? divide_frequency_counter st)%N.
    + right. eexists. split; [apply telemetry_line_one_line|].
      split; reflexivity.
    + left. split; reflexivity.
  - left. split; reflexivity.
Qed.

(** X13: from any state, with the timestamp enabled or not, what an
    execution sends to [Serial] is what was there before followed by
    complete lines and nothing else, one line for each control cycle it
    runs: each line ends with carriage return and line feed and holds no
    other line feed, whatever the numbers printed; firings of Timer1,
    firings of Timer2 that run no control cycle and iterations of the main
    loop print nothing. *)
Theorem X13_one_line_per_cycle :
  forall (evs : list Event) (st : State),
    exists lines : list string,
      serial (run st evs) = (serial st ++ concat_lines lines)%string
      /\ (cycles (run st evs) = cycles st + List.length lines)%nat
      /\ Forall one_line lines.
Proof.
  induction evs as [|ev evs IH]; intros st.
  - exists []. cbn [run fold_left concat_lines List.length].
    rewrite append_empty_r. split; [reflexivity|]. split; [lia | constructor].
  - cbn [run fold_left]. fold (run (step st ev) evs).
    destruct (IH (step st ev)) as [lines [S [C F]]].
    destruct (step_serial ev st) as [[S1 C1]|[l [L [S1 C1]]]].
    + exists lines. rewrite S, C, S1, C1. split; [reflexivity|].
      split; [reflexivity | exact F].
    + exists (l :: lines). rewrite S, C, S1, C1.
      cbn [concat_lines List.length]. rewrite append_assoc.
      split; [reflexivity|]. split; [lia | constructor; assumption].
Qed.

(** ** Edges across a control-cycle boundary *)

Lemma last_default (A : Type) (l : list A) :
  forall y d d' : A, last (y :: l) d = last (y :: l) d'.
Proof.
  induction l as [|z l IH]; intros y d d'; [reflexivity|].
  change (last (y :: z :: l) d) with (last (z :: l) d).
  change (last (y :: z :: l) d') with (last (z :: l) d').
  apply IH.
Qed.

Lemma last_cons (A : Type) (x d : A) (l : list A) : last (x :: l) d = last l x.
Proof.
  destruct l as [|y l]; [reflexivity|].
  change (last (x :: y :: l) d) with (last (y :: l) d).
  apply last_default.
Qed.

Lemma transitions_app (a b : list bool) :
  forall l : bool,
    transitions l (a ++ b) = (transitions l a + transitions (last a l) b)%nat.
Proof.
  induction a as [|x a IH]; intros l; [reflexivity|].
  cbn [app transitions]. rewrite IH, last_cons. lia.
Qed.

Lemma samples_app (a b : list Event) :
  samples (a ++ b) = samples a ++ samples b.
Proof.
  induction a as [|ev a IH]; [reflexivity|].
  destruct ev; cbn [app samples]; rewrite IH; reflexivity.
Qed.

Lemma step_lastStateHigh (ev : Event) (st : State) :
  lastStateHigh (step st ev)
  = match ev with Timer1 pin => pin | _ => lastStateHigh st end.
Proof.
  destruct ev as [pin|micros|a0]; cbn [step].
  - pose proof (f_equal fst (TIMER1_edge pin st)) as T.
    rewrite edge_detector_sample in T. exact T.
  - rewrite TIMER2_effect.
    destruct (5 <=? divide_frequency_counter st)%N; reflexivity.
  - reflexivity.
Qed.

Lemma run_lastStateHigh (evs : list Event) :
  forall st : State,
    lastStateHigh (run st evs) = last (samples evs) (lastStateHigh st).
Proof.
  induction evs as [|ev evs IH]; intros st; [reflexivity|].
  cbn [run fold_left]. fold (run (step st ev) evs).
  rewrite IH, step_lastStateHigh.
  destruct ev; cbn [samples]; try reflexivity.
  rewrite last_cons. reflexivity.
Qed.

Lemma transitions_app_le (a b : list bool) (l : bool) :
  (transitions l a <= transitions l (a ++ b))%nat
  /\ (transitions (last a l) b <= transitions l (a ++ b))%nat.
Proof. rewrite transitions_app. lia. Qed.

(** X14: no edge is lost or counted twice across a control cycle.  Over two
    consecutive intervals, the first ended by the Timer2 call that runs a
    control cycle, the two snapshots add up to the number of level
    transitions in all the samples of both intervals: the control cycle
    resets the pulse counter but keeps the stored level, so an edge between
    the last sample of one interval and the first of the next is counted
    once, in the second. *)
Theorem X14_no_edge_lost_across_cycles :
  forall (st : State) (evs1 evs2 : list Event) (micros : N),
    encoderCounts st = 0%N ->
    (divide_frequency_counter st + N.of_nat (timer2_count evs1) = 5)%N ->
    timer2_count evs2 = 4%nat ->
    Z.of_nat (transitions (lastStateHigh st) (samples (evs1 ++ evs2))) <= INT_MAX ->
    let st1 := run st evs1 in
    let st2 := run (TIMER2_COMPA_vect micros st1) evs2 in
    divide_frequency_counter st2 = 5%N
    /\ lastStateHigh (TIMER2_COMPA_vect micros st1) = lastStateHigh st1
    /\ fst (snapshot st1) + fst (snapshot st2)
       = Z.of_nat (transitions (lastStateHigh st) (samples (evs1 ++ evs2))).
Proof.
  intros st evs1 evs2 micros E C1 C2 B st1 st2.
  rewrite samples_app in B |- *.
  destruct (transitions_app_le (samples evs1) (samples evs2) (lastStateHigh st))
    as [L1 L2].
  destruct (run_between_cycles evs1 st 0) as [_ D1];
    [lia | rewrite E; reflexivity |].
  fold st1 in D1. rewrite C1 in D1.
  assert (T : TIMER2_COMPA_vect micros st1
              = set_divide_frequency_counter 1
                  (control_cycle micros (set_divide_frequency_counter 0 st1)))
    by (apply TIMER2_fires; exact D1).
  assert (K : lastStateHigh (TIMER2_COMPA_vect micros st1) = lastStateHigh st1).
  { rewrite T, control_cycle_effect. reflexivity. }
  assert (E2 : encoderCounts (TIMER2_COMPA_vect micros st1) = 0%N).
  { rewrite T, control_cycle_effect. reflexivity. }
  assert (D2 : divide_frequency_counter (TIMER2_COMPA_vect micros st1) = 1%N).
  { rewrite T. reflexivity. }
  destruct (run_between_cycles evs2 (TIMER2_COMPA_vect micros st1) 0) as [_ D3];
    [rewrite D2, C2; cbn; lia | rewrite E2; reflexivity |].
  fold st2 in D3. rewrite D2, C2 in D3.
  split; [exact D3|]. split; [exact K|].
  unfold st1 at 1. rewrite (snapshot_modular st evs1 E) by lia.
  unfold st2. rewrite (snapshot_modular _ evs2 E2) by (rewrite D2, C2; cbn; lia).
  rewrite K. unfold st1. rewrite run_lastStateHigh.
  rewrite !int_of_uint_small by lia.
  rewrite transitions_app. lia.
Qed.

Lemma X14_no_edge_lost_across_cycles_witness :
  fst (snapshot (run booted [Timer1 true; Timer2 0; Timer1 false; Timer2 1;
                             Timer2 2; Timer2 3; Timer2 4; Timer1 true]))
  + fst (snapshot (run (TIMER2_COMPA_vect 5
                          (run booted [Timer1 true; Timer2 0; Timer1 false;
                                       Timer2 1; Timer2 2; Timer2 3; Timer2 4;
                                       Timer1 true]))
                       [Timer1 false; Timer2 6; Timer2 7; Timer1 false;
                        Timer2 8; Timer1 true; Timer2 9]))
  = 5.
Proof.
  refine (proj2 (proj2 (X14_no_edge_lost_across_cycles booted
            [Timer1 true; Timer2 0; Timer1 false; Timer2 1; Timer2 2;
             Timer2 3; Timer2 4; Timer1 true]
            [Timer1 false; Timer2 6; Timer2 7; Timer1 false; Timer2 8;
             Timer1 true; Timer2 9] 5 _ _ _ _))).
  - reflexivity.
  - reflexivity.
  - reflexivity.
  - vm_compute. discriminate.
Defined.

(** ** The timer setup *)

Lemma bit_mask_spec (b i : N) : N.testbit (bit_mask b) i = (b =? i)%N.
Proof.
  unfold bit_mask. rewrite N.shiftl_1_l. apply N.pow2_bits_eqb.
Qed.

Lemma to_uint8_spec (n i : N) :
  N.testbit (to_uint8 n) i = N.testbit n i && (i <? 8)%N.
Proof.
  unfold to_uint8. change 255%N with (N.ones 8).
  rewrite N.land_spec. f_equal.
  destruct (N.ltb_spec i 8) as [L|L].
  - apply N.ones_spec_low. exact L.
  - apply N.ones_spec_high. exact L.
Qed.

Lemma to_uint8_lor_twice (x m : N) :
  to_uint8 (N.lor (to_uint8 (N.lor x m)) m) = to_uint8 (N.lor x m).
Proof.
  apply N.bits_inj. intros i.
  rewrite !to_uint8_spec, !N.lor_spec, to_uint8_spec, N.lor_spec.
  destruct (N.testbit x i), (N.testbit m i), (i <? 8)%N; reflexivity.
Qed.

(** X15: on the configuration registers, [setupTimer1] leaves TCCR1B with
    exactly the bits WGM12 and CS10 set, TCCR1A cleared and OCR1A at 1562,
    whatever they held before; in TIMSK1 it sets the bit OCIE1A and keeps
    the others; it does not touch the configuration of Timer2; and it
    returns with interrupts enabled even if they were disabled when it was
    called. *)
Theorem X15_setupTimer1_registers :
  forall (io : IoBits) (r : Registers) (i : N),
    let r' := setupTimer1 io r in
    N.testbit (TCCR1B r') i
    = ((WGM12 io =? i) || (CS10 io =? i))%N && (i <? 8)%N
    /\ N.testbit (TIMSK1 r') i
       = (N.testbit (TIMSK1 r) i || (OCIE1A io =? i)%N) && (i <? 8)%N
    /\ TCCR1A r' = 0%N /\ OCR1A r' = 1562%N
    /\ (TCCR2A r', TCCR2B r', OCR2A r', TIMSK2 r')
       = (TCCR2A r, TCCR2B r, OCR2A r, TIMSK2 r)
    /\ interrupts_enabled r' = true.
Proof.
  intros io r i. cbn zeta. unfold setupTimer1, cli, sei.
  cbn -[to_uint8 bit_mask N.lor N.testbit N.eqb N.ltb].
  rewrite !to_uint8_spec, !N.lor_spec, !bit_mask_spec, N.bits_0.
  repeat split.
Qed.

(** X16: on the configuration registers, [setupTimer2] leaves TCCR2A with
    exactly the bit WGM21 set, TCCR2B with exactly the bits CS22, CS21 and
    CS20 set and OCR2A at 156, whatever they held before; in TIMSK2 it sets
    the bit OCIE2A and keeps the others; it does not touch the
    configuration of Timer1; and it returns with interrupts enabled. *)
Theorem X16_setupTimer2_registers :
  forall (io : IoBits) (r : Registers) (i : N),
    let r' := setupTimer2 io r in
    N.testbit (TCCR2A r') i = (WGM21 io =? i)%N && (i <? 8)%N
    /\ N.testbit (TCCR2B r') i
       = ((CS22 io =? i) || (CS21 io =? i) || (CS20 io =? i))%N && (i <? 8)%N
    /\ N.testbit (TIMSK2 r') i
       = (N.testbit (TIMSK2 r) i || (OCIE2A io =? i)%N) && (i <? 8)%N
    /\ OCR2A r' = 156%N
    /\ (TCCR1A r', TCCR1B r', OCR1A r', TIMSK1 r')
       = (TCCR1A r, TCCR1B r, OCR1A r, TIMSK1 r)
    /\ interrupts_enabled r' = true.
Proof.
  intros io r i. cbn zeta. unfold setupTimer2, noInterrupts, interrupts, cli, sei.
  cbn -[to_uint8 bit_mask N.lor N.testbit N.eqb N.ltb].
  rewrite !to_uint8_spec, !N.lor_spec, !bit_mask_spec, N.bits_0.
  repeat split.
Qed.

(** X17: the configuration the two setup functions leave does not depend on
    how often or in which order they run: on the configuration registers
    and the interrupt flag each function is idempotent, and setting up
    Timer1 then Timer2, as [setup()] does, gives the same configuration as
    the other order.  (The counters, which run meanwhile, are not part of
    it.) *)
Theorem X17_timer_setup_composes :
  forall (io : IoBits) (r : Registers),
    setupTimer1 io (setupTimer1 io r) = setupTimer1 io r
    /\ setupTimer2 io (setupTimer2 io r) = setupTimer2 io r
    /\ setupTimer1 io (setupTimer2 io r) = setupTimer2 io (setupTimer1 io r)
    /\ setup_timers io (setup_timers io r) = setup_timers io r.
Proof.
  intros io r.
  assert (I1 : forall q, setupTimer1 io (setupTimer1 io q) = setupTimer1 io q).
  { intros q. unfold setupTimer1, cli, sei.
    cbn -[to_uint8 bit_mask N.lor].
    rewrite to_uint8_lor_twice. reflexivity. }
  assert (I2 : forall q, setupTimer2 io (setupTimer2 io q) = setupTimer2 io q).
  { intros q. unfold setupTimer2, noInterrupts, interrupts, cli, sei.
    cbn -[to_uint8 bit_mask N.lor].
    rewrite to_uint8_lor_twice. reflexivity. }
  assert (C : forall q, setupTimer1 io (setupTimer2 io q)
                        = setupTimer2 io (setupTimer1 io q))
    by (intros q; reflexivity).
  split; [apply I1|]. split; [apply I2|]. split; [apply C|].
  unfold setup_timers.
  rewrite <- (C (setupTimer2 io (setupTimer1 io r))), I2, C, I1. reflexivity.
Qed.
